(** * Savings-group ledger (src/src/App.tsx): model and verified properties

    The application is one React component.  Its state is the member list,
    the week counter, the registration form and the inline error; its
    behaviour is the four handlers [handleSubmit], [handleTierChange],
    [handleWithdraw], [advanceWeek] and the pure helpers [getTier],
    [computeProjectedTotal] and [totals]; [render] gives the figures of the
    view.

    Numbers.  A TypeScript [number] is an IEEE-754 binary64 value.
    - [Number(text)] is modelled with the correctly rounded conversion to
      binary64 (the [SpecFloat] operations of the standard library), so that
      NaN, the infinities and decimal rounding are the ones of the runtime.
    - A finite number is then carried as the exact rational it denotes ([Q]).
      The ledger only ever stores the three catalogue amounts, their weekly
      interest and sums of such integers, on which binary64 arithmetic is
      exact; [weeklyInterest_binary64_exact] checks the one product that
      involves non-dyadic literals (amount × rate).
    - The week counter is an integer that starts at 1 and grows by one per
      click; it is modelled by [Z].
    Strings are byte strings holding the UTF-8 text of the JavaScript
    string; [trim] and [Number] recognise every white-space character of
    ECMAScript, in its one-, two- or three-byte form.

    Events are handled one at a time, each against the state of the latest
    render, so a handler is a function from state to state.  The identifier
    that [crypto.randomUUID()] draws is an argument of [handleSubmit]. *)

From Stdlib Require Import List String Ascii Bool ZArith QArith Lia Lqa.
From Stdlib Require Import Floats.SpecFloat DecimalString.
Import ListNotations.

Local Open Scope string_scope.
Local Open Scope list_scope.
Local Open Scope Z_scope.

(** ** The runtime functions the component calls *)

Module JS.

Definition byte (c : ascii) : Z := Z.of_nat (nat_of_ascii c).

(** Whether [ch] is the UTF-8 text of one white-space character of
    ECMAScript (WhiteSpace or LineTerminator): U+0009 to U+000D, U+0020,
    U+00A0, U+1680, U+2000 to U+200A, U+2028, U+2029, U+202F, U+205F, U+3000
    and U+FEFF. *)
Definition isWhiteSpace (ch : string) : bool :=
  match ch with
  | String a EmptyString =>
      ((9 <=? byte a) && (byte a <=? 13)) || (byte a =? 32)
  | String a (String b EmptyString) =>
      (byte a =? 194) && (byte b =? 160)
  | String a (String b (String c EmptyString)) =>
      ((byte a =? 225) && (byte b =? 154) && (byte c =? 128))
      || ((byte a =? 226) && (byte b =? 128)
          && (((128 <=? byte c) && (byte c <=? 138))
              || (byte c =? 168) || (byte c =? 169) || (byte c =? 175)))
      || ((byte a =? 226) && (byte b =? 129) && (byte c =? 159))
      || ((byte a =? 227) && (byte b =? 128) && (byte c =? 128))
      || ((byte a =? 239) && (byte b =? 187) && (byte c =? 191))
  | _ => false
  end.

(** Drops the white-space characters at the start, of one, two or three
    bytes each. *)
Fixpoint trimStart (s : string) : string :=
  match s with
  | EmptyString => EmptyString
  | String a r1 =>
      if isWhiteSpace (String a "") then trimStart r1
      else
        match r1 with
        | EmptyString => s
        | String b r2 =>
            if isWhiteSpace (String a (String b "")) then trimStart r2
            else
              match r2 with
              | EmptyString => s
              | String c r3 =>
                  if isWhiteSpace (String a (String b (String c "")))
                  then trimStart r3
                  else s
              end
        end
  end.

(** Drops the white-space characters at the end.  Going from the end to the
    start, what has been kept so far is dropped whenever it is exactly one
    white-space character. *)
Fixpoint trimEnd (s : string) : string :=
  match s with
  | EmptyString => EmptyString
  | String a r =>
      let kept := String a (trimEnd r) in
      if isWhiteSpace kept then EmptyString else kept
  end.

(** Whether the text starts with a white-space character. *)
Definition startsWithWhiteSpace (s : string) : bool :=
  match s with
  | EmptyString => false
  | String a r1 =>
      isWhiteSpace (String a "")
      || match r1 with
         | EmptyString => false
         | String b r2 =>
             isWhiteSpace (String a (String b ""))
             || match r2 with
                | EmptyString => false
                | String c _ =>
                    isWhiteSpace (String a (String b (String c "")))
                end
         end
  end.

(** The UTF-8 text of a code point. *)
Definition utf8 (codePoint : Z) : string :=
  let unit (b : Z) (rest : string) := String (ascii_of_nat (Z.to_nat b)) rest in
  if codePoint <? 128 then unit codePoint ""
  else if codePoint <? 2048 then
    unit (192 + codePoint / 64) (unit (128 + codePoint mod 64) "")
  else if codePoint <? 65536 then
    unit (224 + codePoint / 4096)
      (unit (128 + (codePoint / 64) mod 64) (unit (128 + codePoint mod 64) ""))
  else
    unit (240 + codePoint / 262144)
      (unit (128 + (codePoint / 4096) mod 64)
         (unit (128 + (codePoint / 64) mod 64) (unit (128 + codePoint mod 64) ""))).

(** The code points of WhiteSpace and LineTerminator: TAB, LF, VT, FF, CR,
    SPACE, NO-BREAK SPACE, OGHAM SPACE MARK, EN QUAD to HAIR SPACE, LINE and
    PARAGRAPH SEPARATOR, NARROW NO-BREAK SPACE, MEDIUM MATHEMATICAL SPACE,
    IDEOGRAPHIC SPACE and the BYTE ORDER MARK. *)
Definition whiteSpaceCodePoints : list Z :=
  [9; 10; 11; 12; 13; 32; 160; 5760;
   8192; 8193; 8194; 8195; 8196; 8197; 8198; 8199; 8200; 8201; 8202;
   8232; 8233; 8239; 8287; 12288; 65279].

(** [String.prototype.trim]. *)
Definition trim (s : string) : string := trimEnd (trimStart s).

(** *** [Number(text)]: the StringToNumber conversion *)

Definition prec : Z := 53.
Definition emax : Z := 1024.

Definition digitValue (radix : Z) (c : ascii) : option Z :=
  let n := Z.of_nat (nat_of_ascii c) in
  let v := if (48 <=? n) && (n <=? 57) then Some (n - 48)
           else if (97 <=? n) && (n <=? 122) then Some (n - 87)
           else if (65 <=? n) && (n <=? 90) then Some (n - 55)
           else None in
  match v with
  | Some d => if d <? radix then Some d else None
  | None => None
  end.

(** Reads the longest prefix of digits: the value read on top of [acc], the
    number of digits added to [n], and the rest of the text. *)
Fixpoint scanDigits (radix acc n : Z) (s : string) : Z * Z * string :=
  match s with
  | String c s' =>
      match digitValue radix c with
      | Some d => scanDigits radix (acc * radix + d) (n + 1) s'
      | None => (acc, n, s)
      end
  | EmptyString => (acc, n, s)
  end.

Definition isChar (a b : string) (c : ascii) : bool :=
  match a, b with
  | String x _, String y _ => Ascii.eqb c x || Ascii.eqb c y
  | _, _ => false
  end.

Definition signOf (s : string) : bool * string :=
  match s with
  | String c r =>
      if isChar "-" "-" c then (true, r)
      else if isChar "+" "+" c then (false, r)
      else (false, s)
  | EmptyString => (false, s)
  end.

(** ExponentPart, optional, up to the end of the text. *)
Definition exponentPart (s : string) : option Z :=
  match s with
  | EmptyString => Some 0
  | String c r =>
      if isChar "e" "E" c then
        let '(neg, ds) := signOf r in
        match scanDigits 10 0 0 ds with
        | (v, n, EmptyString) =>
            if 0 <? n then Some (if neg then - v else v) else None
        | _ => None
        end
      else None
  end.

(** StrUnsignedDecimalLiteral other than Infinity: the decimal mantissa and
    the power of ten. *)
Definition unsignedDecimal (s : string) : option (Z * Z) :=
  let '(ip, ni, r1) := scanDigits 10 0 0 s in
  let '(m, nf, r2) :=
    match r1 with
    | String c r => if isChar "." "." c then scanDigits 10 ip 0 r else (ip, 0, r1)
    | EmptyString => (ip, 0, r1)
    end in
  if (0 <? ni) || (0 <? nf) then
    match exponentPart r2 with
    | Some e => Some (m, e - nf)
    | None => None
    end
  else None.

(** NonDecimalIntegerLiteral: 0x, 0o and 0b prefixes, unsigned. *)
Definition nonDecimal (s : string) : option Z :=
  match s with
  | String z (String p r) =>
      let radix := if isChar "x" "X" p then 16
                   else if isChar "o" "O" p then 8
                   else if isChar "b" "B" p then 2
                   else 0 in
      if isChar "0" "0" z && (0 <? radix) then
        match scanDigits radix 0 0 r with
        | (v, n, EmptyString) => if 0 <? n then Some v else None
        | _ => None
        end
      else None
  | _ => None
  end.

(** The binary64 value nearest to [± m × 10^e10], ties to even. *)
Definition toDouble (neg : bool) (m e10 : Z) : spec_float :=
  match e10 with
  | Zneg k =>
      let '(q, e, l) := SFdiv_core_binary prec emax m 0 (Zpos (Pos.pow 10 k)) 0 in
      binary_round_aux prec emax neg q e l
  | _ => binary_normalize prec emax (cond_Zopp neg (m * 10 ^ e10)) 0 neg
  end.

Definition StringToNumber (text : string) : spec_float :=
  let s := trim text in
  match s with
  | EmptyString => S754_zero false
  | _ =>
      match nonDecimal s with
      | Some v => binary_normalize prec emax v 0 false
      | None =>
          let '(neg, u) := signOf s in
          if String.eqb u "Infinity" then S754_infinity neg
          else match unsignedDecimal u with
               | Some (m, e) => toDouble neg m e
               | None => S754_nan
               end
      end
  end.

(** A number as the ledger sees it: NaN, an infinity, or the exact value of
    a finite binary64 number. *)
Inductive number : Type :=
  | NaN
  | Infinity (negative : bool)
  | Finite (q : Q).

Definition ofDouble (f : spec_float) : number :=
  match f with
  | S754_nan => NaN
  | S754_infinity s => Infinity s
  | S754_zero _ => Finite 0
  | S754_finite s m e => Finite (Qred (inject_Z (cond_Zopp s (Zpos m)) * 2 ^ e))
  end.

Definition Number (text : string) : number := ofDouble (StringToNumber text).

(** [Number.isNaN]. *)
Definition isNaN (n : number) : bool :=
  match n with
  | NaN => true
  | _ => false
  end.

(** The text of an integer in a template literal (decimal digits, as for
    every integer below 10^21). *)
Definition toString (z : Z) : string := NilZero.string_of_int (Z.to_int z).

End JS.

(** ** Data model *)

(** A catalogue entry.  [amount] is an integer literal; [rate] is the decimal
    literal of the source as a fraction. *)
Module Tier.
Record t : Type := mk
  { id : string;
    name : string;
    amount : Z;
    rate : Q;
    description : string }.
End Tier.

Definition tier1 : Tier.t :=
  Tier.mk "tier1" "Tier 1" 10000 (5 # 100) "5% interest per week".
Definition tier2 : Tier.t :=
  Tier.mk "tier2" "Tier 2" 20000 (1 # 10) "10% interest per week".
Definition tier3 : Tier.t :=
  Tier.mk "tier3" "Tier 3" 30000 (2 # 10) "20% interest per week".

Definition TIERS : list Tier.t := [tier1; tier2; tier3].

Definition MAX_MEMBERS : nat := 12.

(** [TierId] is the union of the three literal identifiers; at run time it is
    a string. *)
Definition TierId : Type := string.

(** A stored member.  [amount] is the parsed amount that passed validation,
    hence finite; [weeklyInterest] is its product with the tier's rate. *)
Module Member.
Record t : Type := mk
  { id : string;
    name : string;
    tierId : TierId;
    amount : Q;
    weeklyInterest : Q;
    startWeek : Z }.
End Member.

(** [TIERS.find((tier) => tier.id === tierId)!]: [None] is the [undefined]
    that [find] returns when no tier has the identifier. *)
Definition getTier (tierId : TierId) : option Tier.t :=
  find (fun tier => String.eqb (Tier.id tier) tierId) TIERS.

(** ** Derived figures *)

Definition computeProjectedTotal (member : Member.t) (currentWeek : Z) : Q :=
  let weeksActive := Z.max 1 (currentWeek - Member.startWeek member + 1) in
  (Member.amount member + Member.weeklyInterest member * inject_Z weeksActive)%Q.

Module Totals.
Record t : Type := mk
  { totalPrincipal : Q;
    totalWithInterest : Q;
    totalWeeklyInterest : Q }.
End Totals.

Definition totals (members : list Member.t) (currentWeek : Z) : Totals.t :=
  let totalPrincipal :=
    fold_left (fun sum member => (sum + Member.amount member)%Q) members 0%Q in
  let totalWithInterest :=
    fold_left (fun sum member => (sum + computeProjectedTotal member currentWeek)%Q)
      members 0%Q in
  let totalWeeklyInterest :=
    fold_left (fun sum member => (sum + Member.weeklyInterest member)%Q)
      members 0%Q in
  Totals.mk totalPrincipal totalWithInterest totalWeeklyInterest.

(** ** Component state *)

Module FormState.
Record t : Type := mk
  { name : string;
    tierId : TierId;
    amount : string }.
End FormState.

(** The inline message.  [NoError] is the empty text; the other four are
    'Please enter the student name.', 'Amount must be a number.',
    'Tier <name> requires exactly <amount>.' and
    'The group already has 12 members.'. *)
Inductive ErrorMessage : Type :=
  | NoError
  | EmptyNameError
  | InvalidAmountError
  | TierMismatchError (tierName : string) (required : Z)
  | CapacityExceededError.

Record AppState : Type := mkApp
  { members : list Member.t;
    currentWeek : Z;
    formState : FormState.t;
    error : ErrorMessage }.

Definition initialState : AppState :=
  {| members := [];
     currentWeek := 1;
     formState := FormState.mk "" "tier1" (JS.toString (Tier.amount tier1));
     error := NoError |}.

Definition availableSlots (st : AppState) : Z :=
  Z.of_nat MAX_MEMBERS - Z.of_nat (List.length (members st)).

Definition setError (e : ErrorMessage) (st : AppState) : AppState :=
  mkApp (members st) (currentWeek st) (formState st) e.

Definition setMembers (f : list Member.t -> list Member.t) (st : AppState)
  : AppState :=
  mkApp (f (members st)) (currentWeek st) (formState st) (error st).

Definition setCurrentWeek (f : Z -> Z) (st : AppState) : AppState :=
  mkApp (members st) (f (currentWeek st)) (formState st) (error st).

Definition setFormState (f : FormState.t -> FormState.t) (st : AppState)
  : AppState :=
  mkApp (members st) (currentWeek st) (f (formState st)) (error st).

(** [n === z] for an integer [z]; when it holds, the value of [n]. *)
Definition strictEquals (n : JS.number) (z : Z) : option Q :=
  match n with
  | JS.Finite q => if Qeq_bool q (inject_Z z) then Some q else None
  | _ => None
  end.

(** ** Handlers

    A handler returns [None] when it throws: reading [.amount] of the
    [undefined] that [getTier] gave for an unknown identifier.  Nothing is
    modelled past a throw; [reachable_step_total] shows that no handler
    throws in a run in which the tier selector offers the catalogue. *)

(** [uuid] is the value of [crypto.randomUUID()]. *)
Definition handleSubmit (uuid : string) (st : AppState) : option AppState :=
  let st := setError NoError st in
  let trimmedName := JS.trim (FormState.name (formState st)) in
  let selectedTier := getTier (FormState.tierId (formState st)) in
  let parsedAmount := JS.Number (FormState.amount (formState st)) in
  if String.eqb trimmedName "" then Some (setError EmptyNameError st)
  else if JS.isNaN parsedAmount then Some (setError InvalidAmountError st)
  else
    match selectedTier with
    | None => None
    | Some selectedTier =>
        match strictEquals parsedAmount (Tier.amount selectedTier) with
        | None =>
            Some (setError (TierMismatchError (Tier.name selectedTier)
                              (Tier.amount selectedTier)) st)
        | Some amount =>
            if (MAX_MEMBERS <=? List.length (members st))%nat
            then Some (setError CapacityExceededError st)
            else
              let newMember :=
                Member.mk uuid trimmedName (Tier.id selectedTier) amount
                  (amount * Tier.rate selectedTier)%Q (currentWeek st) in
              Some (setFormState
                      (fun _ => FormState.mk ""
                                  (FormState.tierId (formState st))
                                  (JS.toString (Tier.amount selectedTier)))
                      (setMembers (fun prev => prev ++ [newMember]) st))
        end
    end.

Definition handleTierChange (tierId : TierId) (st : AppState)
  : option AppState :=
  match getTier tierId with
  | None => None
  | Some selectedTier =>
      Some (setFormState
              (fun prev => FormState.mk (FormState.name prev) tierId
                             (JS.toString (Tier.amount selectedTier)))
              st)
  end.

Definition handleWithdraw (memberId : string) (st : AppState) : AppState :=
  setMembers
    (fun prev =>
       filter (fun member => negb (String.eqb (Member.id member) memberId)) prev)
    st.

Definition advanceWeek (st : AppState) : AppState :=
  setCurrentWeek (fun prev => prev + 1) st.

(** The [onChange] of the name field and of the amount field. *)
Definition handleNameChange (value : string) (st : AppState) : AppState :=
  setFormState
    (fun prev => FormState.mk value (FormState.tierId prev) (FormState.amount prev))
    st.

Definition handleAmountChange (value : string) (st : AppState) : AppState :=
  setFormState
    (fun prev => FormState.mk (FormState.name prev) (FormState.tierId prev) value)
    st.

(** ** Runs of the component *)

Inductive Event : Type :=
  | NameChange (value : string)
  | TierChange (tierId : TierId)
  | AmountChange (value : string)
  | Submit (uuid : string)
  | Withdraw (memberId : string)
  | IncrementWeek.

Definition step (ev : Event) (st : AppState) : option AppState :=
  match ev with
  | NameChange value => Some (handleNameChange value st)
  | TierChange tierId => handleTierChange tierId st
  | AmountChange value => Some (handleAmountChange value st)
  | Submit uuid => handleSubmit uuid st
  | Withdraw memberId => Some (handleWithdraw memberId st)
  | IncrementWeek => Some (advanceWeek st)
  end.

Fixpoint run (evs : list Event) (st : AppState) : option AppState :=
  match evs with
  | [] => Some st
  | ev :: evs' =>
      match step ev st with
      | Some st' => run evs' st'
      | None => None
      end
  end.

Inductive reachable : AppState -> Prop :=
  | reachable_init : reachable initialState
  | reachable_step : forall ev st st',
      reachable st -> step ev st = Some st' -> reachable st'.

(** [n] clicks on the week button. *)
Fixpoint advanceWeeks (n : nat) (st : AppState) : AppState :=
  match n with
  | O => st
  | S n' => advanceWeeks n' (advanceWeek st)
  end.

(** The member that a successful submission appends. *)
Definition newMemberOf (uuid : string) (st : AppState) (tier : Tier.t) (q : Q)
  : Member.t :=
  Member.mk uuid (JS.trim (FormState.name (formState st))) (Tier.id tier) q
    (q * Tier.rate tier)%Q (currentWeek st).

(** The five ways [handleSubmit] can return, and the one way it throws. *)
Inductive SubmitCase (uuid : string) (st : AppState) : option AppState -> Prop :=
  | submit_empty_name :
      JS.trim (FormState.name (formState st)) = "" ->
      SubmitCase uuid st (Some (setError EmptyNameError st))
  | submit_not_a_number :
      JS.trim (FormState.name (formState st)) <> "" ->
      JS.Number (FormState.amount (formState st)) = JS.NaN ->
      SubmitCase uuid st (Some (setError InvalidAmountError st))
  | submit_unknown_tier :
      JS.trim (FormState.name (formState st)) <> "" ->
      JS.Number (FormState.amount (formState st)) <> JS.NaN ->
      getTier (FormState.tierId (formState st)) = None ->
      SubmitCase uuid st None
  | submit_tier_mismatch : forall tier,
      JS.trim (FormState.name (formState st)) <> "" ->
      JS.Number (FormState.amount (formState st)) <> JS.NaN ->
      getTier (FormState.tierId (formState st)) = Some tier ->
      strictEquals (JS.Number (FormState.amount (formState st)))
        (Tier.amount tier) = None ->
      SubmitCase uuid st
        (Some (setError (TierMismatchError (Tier.name tier) (Tier.amount tier)) st))
  | submit_full : forall tier q,
      JS.trim (FormState.name (formState st)) <> "" ->
      getTier (FormState.tierId (formState st)) = Some tier ->
      strictEquals (JS.Number (FormState.amount (formState st)))
        (Tier.amount tier) = Some q ->
      (MAX_MEMBERS <= List.length (members st))%nat ->
      SubmitCase uuid st (Some (setError CapacityExceededError st))
  | submit_registered : forall tier q,
      JS.trim (FormState.name (formState st)) <> "" ->
      getTier (FormState.tierId (formState st)) = Some tier ->
      strictEquals (JS.Number (FormState.amount (formState st)))
        (Tier.amount tier) = Some q ->
      (List.length (members st) < MAX_MEMBERS)%nat ->
      SubmitCase uuid st
        (Some (mkApp (members st ++ [newMemberOf uuid st tier q])
                 (currentWeek st)
                 (FormState.mk "" (FormState.tierId (formState st))
                    (JS.toString (Tier.amount tier)))
                 NoError)).

(** The sum of a list of amounts. *)
Definition sumQ (l : list Q) : Q := fold_right Qplus 0%Q l.

(** The three identifiers the tier selector offers. *)
Definition tierIds : list TierId := map Tier.id TIERS.

(** A member as registration makes them: the deposit of their tier and the
    weekly interest that the tier's rate gives on it. *)
Definition catalogMember (member : Member.t) : Prop :=
  exists tier,
    In tier TIERS
    /\ Member.tierId member = Tier.id tier
    /\ (Member.amount member == inject_Z (Tier.amount tier))%Q
    /\ (Member.weeklyInterest member
        == Member.amount member * Tier.rate tier)%Q.

(** *** Sample runs *)

(** Three clicks on the week button, then Ada joins tier 3. *)
Definition tier3_joins_week4 : list Event :=
  [IncrementWeek; IncrementWeek; IncrementWeek;
   NameChange " Ada "; TierChange "tier3"; Submit "id-ada"].

(** One registration in the tier the form shows, under the given name. *)
Definition registration (who : string) : list Event :=
  [NameChange who; Submit who].

(** Twelve students fill the group. *)
Definition twelve_registrations : list Event :=
  flat_map registration
    ["s01"; "s02"; "s03"; "s04"; "s05"; "s06";
     "s07"; "s08"; "s09"; "s10"; "s11"; "s12"].

(** Ada has typed her name; the form still shows tier 1 and its amount. *)
Definition ada_ready : AppState := handleNameChange "Ada" initialState.

(** Variants of the form: a blank name, and amounts that are not a number,
    not the tier's amount, and infinite. *)
Definition blank_name : AppState := handleNameChange "   " initialState.
Definition amount_in_words : AppState :=
  handleAmountChange "ten thousand" ada_ready.
Definition amount_of_tier2 : AppState := handleAmountChange "20000" ada_ready.
Definition amount_Infinity : AppState := handleAmountChange "Infinity" ada_ready.
Definition amount_1e999 : AppState := handleAmountChange "1e999" ada_ready.

(** U+00A0, the no-break space, in UTF-8. *)
Definition NBSP : string :=
  String (ascii_of_nat 194) (String (ascii_of_nat 160) "").

(** A name that is one no-break space; and Ada's name and the amount of
    tier 1 with no-break spaces around them. *)
Definition name_of_NBSP : AppState := handleNameChange NBSP initialState.
Definition padded_with_NBSP : AppState :=
  handleAmountChange (NBSP ++ "10000" ++ NBSP)%string
    (handleNameChange ("Ada" ++ NBSP)%string initialState).

(** Forms whose tier identifier is not in the catalogue: with a blank name,
    with an amount in words, and with nothing else wrong. *)
Definition unknown_tier_blank : AppState :=
  setFormState (fun _ => FormState.mk "" "tier4" "10000") initialState.
Definition unknown_tier_words : AppState :=
  setFormState (fun _ => FormState.mk "Ada" "tier4" "ten thousand") initialState.
Definition unknown_tier_ready : AppState :=
  setFormState (fun _ => FormState.mk "Ada" "tier4" "10000") initialState.

(** The group is full and a thirteenth student has typed a name. *)
Definition thirteenth_attempt : list Event :=
  twelve_registrations ++ [NameChange "s13"].

(** Three students join in week 1, the week advances twice. *)
Definition three_members : list Event :=
  flat_map registration ["s01"; "s02"; "s03"] ++ [IncrementWeek; IncrementWeek].

(** ** What the component renders

    The figures of the view, before currency formatting.  Rendering throws
    ([None]) where it reads a property of the [undefined] that [getTier]
    gave. *)

(** [disabled={availableSlots === 0}] of the submit button. *)
Definition submitDisabled (st : AppState) : bool := availableSlots st =? 0.

(** One row of the member table. *)
Module Row.
Record t : Type := mk
  { student : string;
    joinedWeek : Z;
    tierName : string;
    tierDescription : string;
    deposit : Q;
    weeklyInterest : Q;
    projectedTotal : Q }.
End Row.

Definition renderRow (currentWeek : Z) (member : Member.t) : option Row.t :=
  match getTier (Member.tierId member) with
  | None => None
  | Some tier =>
      let projectedTotal := computeProjectedTotal member currentWeek in
      Some (Row.mk (Member.name member) (Member.startWeek member)
              (Tier.name tier) (Tier.description tier)
              (Member.amount member) (Member.weeklyInterest member)
              projectedTotal)
  end.

(** [members.map(...)] of the table. *)
Fixpoint renderRows (currentWeek : Z) (members : list Member.t)
  : option (list Row.t) :=
  match members with
  | [] => Some []
  | member :: rest =>
      match renderRow currentWeek member with
      | None => None
      | Some row =>
          match renderRows currentWeek rest with
          | None => None
          | Some rows => Some (row :: rows)
          end
      end
  end.

Module View.
Record t : Type := mk
  { week : Z;
    openSlots : Z;
    amountMin : Z;
    amountMax : Z;
    message : ErrorMessage;
    disabled : bool;
    figures : Totals.t;
    activeMembers : nat;
    rows : list Row.t }.
End View.

Definition render (st : AppState) : option View.t :=
  match getTier (FormState.tierId (formState st)) with
  | None => None
  | Some tier =>
      match renderRows (currentWeek st) (members st) with
      | None => None
      | Some rows =>
          Some (View.mk (currentWeek st) (availableSlots st)
                  (Tier.amount tier) (Tier.amount tier)
                  (error st) (submitDisabled st)
                  (totals (members st) (currentWeek st))
                  (List.length (members st)) rows)
      end
  end.

(** The identifiers of the members, in list order. *)
Definition memberIds (st : AppState) : list string :=
  map Member.id (members st).

(** The form with the white space around the name and the amount removed. *)
Definition trimmedForm (st : AppState) : AppState :=
  setFormState
    (fun prev => FormState.mk (JS.trim (FormState.name prev))
                   (FormState.tierId prev) (JS.trim (FormState.amount prev)))
    st.

(** What a submission leaves of the ledger and of the message. *)
Definition outcome (r : option AppState)
  : option (list Member.t * Z * ErrorMessage) :=
  option_map (fun st => (members st, currentWeek st, error st)) r.

(** The state that a list of events leads to from the initial state (the
    initial state itself if a handler throws on the way). *)
Definition stateOf (evs : list Event) : AppState :=
  match run evs initialState with
  | Some st => st
  | None => initialState
  end.

(** ** The white space of [trim] and [Number]

    On every code point up to U+10FFFF, [isWhiteSpace] accepts the UTF-8 text
    of the code point exactly when it is in the table of ECMAScript. *)

Lemma byte_of_unit (b : Z) :
  0 <= b < 256 -> JS.byte (ascii_of_nat (Z.to_nat b)) = b.
Proof.
  intros Hb. unfold JS.byte. rewrite nat_ascii_embedding by lia. lia.
Qed.

Ltac bools_to_props :=
  rewrite ?orb_true_iff, ?andb_true_iff, ?Z.eqb_eq, ?Z.leb_le.

Lemma isWhiteSpace_table (codePoint : Z) :
  0 <= codePoint <= 1114111 ->
  JS.isWhiteSpace (JS.utf8 codePoint) = true
  <-> In codePoint JS.whiteSpaceCodePoints.
Proof.
  intros Hrange. unfold JS.utf8, JS.whiteSpaceCodePoints.
  cbv zeta. cbn [In].
  destruct (codePoint <? 128) eqn:E1;
    [| destruct (codePoint <? 2048) eqn:E2;
       [| destruct (codePoint <? 65536) eqn:E3]];
    rewrite ?Z.ltb_lt, ?Z.ltb_ge in *; cbn [JS.isWhiteSpace].
  - rewrite !byte_of_unit by lia. bools_to_props.
    split; intros H; intuition lia.
  - assert (Hsplit : codePoint = 64 * (codePoint / 64) + codePoint mod 64)
      by (apply Z.div_mod; lia).
    assert (H3 : 0 <= codePoint mod 64 < 64) by (apply Z.mod_pos_bound; lia).
    assert (H1 : 2 <= codePoint / 64 < 32)
      by (split; [apply Z.div_le_lower_bound | apply Z.div_lt_upper_bound]; lia).
    generalize dependent (codePoint mod 64).
    generalize dependent (codePoint / 64). intros q1 H1 q3 Hsplit H3.
    rewrite !byte_of_unit by lia. bools_to_props.
    split; intros H; intuition lia.
  - assert (Hsplit : codePoint = 64 * (codePoint / 64) + codePoint mod 64)
      by (apply Z.div_mod; lia).
    assert (Hsplit' : codePoint / 64
                      = 64 * (codePoint / 64 / 64) + (codePoint / 64) mod 64)
      by (apply Z.div_mod; lia).
    assert (Hq : codePoint / 4096 = codePoint / 64 / 64)
      by (rewrite Z.div_div by lia; reflexivity).
    assert (H3 : 0 <= codePoint mod 64 < 64) by (apply Z.mod_pos_bound; lia).
    assert (H2 : 0 <= (codePoint / 64) mod 64 < 64)
      by (apply Z.mod_pos_bound; lia).
    assert (H0 : 32 <= codePoint / 64 < 1024)
      by (split; [apply Z.div_le_lower_bound | apply Z.div_lt_upper_bound]; lia).
    assert (H1 : 0 <= codePoint / 64 / 64 < 16)
      by (split; [apply Z.div_le_lower_bound | apply Z.div_lt_upper_bound]; lia).
    rewrite Hq.
    generalize dependent (codePoint mod 64).
    generalize dependent ((codePoint / 64) mod 64).
    generalize dependent (codePoint / 64 / 64).
    generalize dependent (codePoint / 64).
    intros q0 H0 q1 Hq H1 q2 Hsplit' H2 q3 Hsplit H3.
    rewrite !byte_of_unit by lia. bools_to_props.
    split; intros H; intuition lia.
  - split; [discriminate | intros H; intuition lia].
Qed.

(** White space of every length is trimmed at both ends and kept inside;
    characters that merely look like it (U+0085, U+200B) are kept. *)
Lemma trim_samples :
  JS.trim (JS.utf8 160 ++ "Ada" ++ JS.utf8 8195 ++ JS.utf8 65279)%string = "Ada"
  /\ JS.trim (JS.utf8 12288 ++ " Ada" ++ JS.utf8 160 ++ "B " ++ JS.utf8 8232)%string
     = ("Ada" ++ JS.utf8 160 ++ "B")%string
  /\ JS.trim (JS.utf8 5760 ++ JS.utf8 8239 ++ JS.utf8 8287)%string = ""
  /\ JS.trim (JS.utf8 233 ++ JS.utf8 8203)%string
     = (JS.utf8 233 ++ JS.utf8 8203)%string
  /\ JS.trim (JS.utf8 133) = JS.utf8 133
  /\ JS.Number (JS.utf8 12288 ++ "10000" ++ JS.utf8 8233)%string
     = JS.Finite 10000
  /\ JS.Number (JS.utf8 160) = JS.Finite 0
  /\ JS.Number (JS.utf8 8203 ++ "10000")%string = JS.NaN.
Proof.
  repeat split; vm_compute; reflexivity.
Qed.

(** ** The binary64 products behind [weeklyInterest]

    [parsedAmount * selectedTier.rate] is the only product of the program
    whose operands are not both integers.  For the three tiers the binary64
    product of the amount and of the rate literal is the exact rational
    product, so carrying finite numbers as rationals loses nothing. *)

Lemma weeklyInterest_binary64_exact :
  Forall
    (fun '(amountText, rateText, tier) =>
       JS.Number amountText = JS.Finite (inject_Z (Tier.amount tier))
       /\ JS.ofDouble (SFmul JS.prec JS.emax (JS.StringToNumber amountText)
                         (JS.StringToNumber rateText))
          = JS.Finite (Qred (inject_Z (Tier.amount tier) * Tier.rate tier)))
    [("10000", "0.05", tier1); ("20000", "0.1", tier2); ("30000", "0.2", tier3)].
Proof.
  repeat constructor; vm_compute; reflexivity.
Qed.

(** ** Basic facts about the helpers *)

Lemma getTier_Some (tierId : TierId) (tier : Tier.t) :
  getTier tierId = Some tier -> In tier TIERS /\ Tier.id tier = tierId.
Proof.
  unfold getTier. intros H. apply find_some in H. destruct H as [Hin Heq].
  split; [assumption | now apply String.eqb_eq].
Qed.

Lemma getTier_catalog (tierId : TierId) :
  getTier tierId =
  if String.eqb "tier1" tierId then Some tier1
  else if String.eqb "tier2" tierId then Some tier2
  else if String.eqb "tier3" tierId then Some tier3
  else None.
Proof. reflexivity. Qed.

Lemma strictEquals_Some (n : JS.number) (z : Z) (q : Q) :
  strictEquals n z = Some q -> n = JS.Finite q /\ (q == inject_Z z)%Q.
Proof.
  destruct n as [| s | q']; simpl; try discriminate.
  destruct (Qeq_bool q' (inject_Z z)) eqn:E; intros H; inversion H; subst.
  split; [reflexivity | now apply Qeq_bool_iff].
Qed.

Lemma strictEquals_not_NaN (n : JS.number) (z : Z) (q : Q) :
  strictEquals n z = Some q -> JS.isNaN n = false.
Proof. destruct n; simpl; [discriminate | reflexivity | reflexivity]. Qed.

Lemma isNaN_false (n : JS.number) : JS.isNaN n = false -> n <> JS.NaN.
Proof. destruct n; simpl; congruence. Qed.

Lemma isNaN_true (n : JS.number) : JS.isNaN n = true -> n = JS.NaN.
Proof. destruct n; simpl; congruence. Qed.

Lemma handleSubmit_cases (uuid : string) (st : AppState) :
  SubmitCase uuid st (handleSubmit uuid st).
Proof.
  unfold handleSubmit, setFormState, setMembers, setError.
  cbn [formState members currentWeek error].
  destruct (String.eqb (JS.trim (FormState.name (formState st))) "") eqn:En.
  { apply String.eqb_eq in En. now apply (submit_empty_name uuid st). }
  apply String.eqb_neq in En.
  destruct (JS.isNaN (JS.Number (FormState.amount (formState st)))) eqn:Ea.
  { apply isNaN_true in Ea. now apply (submit_not_a_number uuid st). }
  apply isNaN_false in Ea.
  destruct (getTier (FormState.tierId (formState st))) as [tier|] eqn:Et.
  2: { now apply (submit_unknown_tier uuid st). }
  destruct (strictEquals (JS.Number (FormState.amount (formState st)))
              (Tier.amount tier)) as [q|] eqn:Eq.
  2: { now apply (submit_tier_mismatch uuid st tier). }
  destruct (MAX_MEMBERS <=? List.length (members st))%nat eqn:Ec.
  { apply Nat.leb_le in Ec. now apply (submit_full uuid st tier q). }
  apply Nat.leb_gt in Ec.
  now apply (submit_registered uuid st tier q).
Qed.

(** ** Projected payout *)

(** C1.  For every member and week the projected payout is the deposit plus
    the weekly interest times max(1, currentWeek - startWeek + 1); queried at
    the member's own join week it is deposit + weekly interest; and the
    member that the run [tier3_joins_week4] registers (tier 3, deposit 30000,
    weekly interest 6000, joined in week 4) is projected 36000 in week 4. *)
Theorem projected_payout_formula :
  (forall member currentWeek,
     computeProjectedTotal member currentWeek =
     (Member.amount member
      + Member.weeklyInterest member
        * inject_Z (Z.max 1 (currentWeek - Member.startWeek member + 1)))%Q)
  /\ (forall member,
        (computeProjectedTotal member (Member.startWeek member)
         == Member.amount member + Member.weeklyInterest member)%Q)
  /\ (exists st member,
        run tier3_joins_week4 initialState = Some st
        /\ members st = [member]
        /\ Member.tierId member = "tier3"
        /\ (Member.amount member == 30000)%Q
        /\ (Member.weeklyInterest member == 6000)%Q
        /\ Member.startWeek member = 4
        /\ currentWeek st = 4
        /\ (computeProjectedTotal member (currentWeek st) == 36000)%Q).
Proof.
  split; [reflexivity | split].
  - intros member. unfold computeProjectedTotal.
    replace (Member.startWeek member - Member.startWeek member + 1) with 1 by lia.
    change (Z.max 1 1) with 1. change (inject_Z 1) with 1%Q. ring.
  - eexists; eexists. split; [vm_compute; reflexivity |].
    repeat split; vm_compute; reflexivity.
Qed.

Lemma computeProjectedTotal_le (member : Member.t) (w w' : Z) :
  (0 <= Member.weeklyInterest member)%Q -> w <= w' ->
  (computeProjectedTotal member w <= computeProjectedTotal member w')%Q.
Proof.
  intros Hwi Hle. unfold computeProjectedTotal.
  apply Qplus_le_r.
  rewrite !(Qmult_comm (Member.weeklyInterest member)).
  apply Qmult_le_compat_r; [| assumption].
  rewrite <- Zle_Qle. lia.
Qed.

Lemma computeProjectedTotal_lt_next (member : Member.t) (w : Z) :
  (0 < Member.weeklyInterest member)%Q -> Member.startWeek member <= w ->
  (computeProjectedTotal member w < computeProjectedTotal member (w + 1))%Q.
Proof.
  intros Hpos Hjoin. unfold computeProjectedTotal.
  apply Qplus_lt_r.
  rewrite !(Qmult_comm (Member.weeklyInterest member)).
  apply Qmult_lt_compat_r; [assumption |].
  rewrite <- Zlt_Qlt. lia.
Qed.

(** C10.  With a non-negative weekly interest the projected payout never
    decreases from a week to a later one; with a positive weekly interest it
    grows strictly with each week from the join week on. *)
Theorem projected_payout_monotone (member : Member.t) :
  (0 <= Member.weeklyInterest member)%Q ->
  (forall w w', w <= w' ->
     (computeProjectedTotal member w <= computeProjectedTotal member w')%Q)
  /\ ((0 < Member.weeklyInterest member)%Q ->
      forall w, Member.startWeek member <= w ->
        (computeProjectedTotal member w < computeProjectedTotal member (w + 1))%Q).
Proof.
  intros Hwi. split.
  - intros w w'. now apply computeProjectedTotal_le.
  - intros Hpos w. now apply computeProjectedTotal_lt_next.
Qed.

Lemma projected_payout_monotone_witness :
  let member := Member.mk "id-ada" "Ada" "tier3" 30000 6000 4 in
  (computeProjectedTotal member 2 <= computeProjectedTotal member 9)%Q
  /\ (computeProjectedTotal member 6 < computeProjectedTotal member (6 + 1))%Q.
Proof.
  intros member.
  assert (H0 : (0 <= Member.weeklyInterest member)%Q) by (vm_compute; discriminate).
  split.
  - apply (proj1 (projected_payout_monotone member H0)). lia.
  - apply (proj2 (projected_payout_monotone member H0)).
    + vm_compute; reflexivity.
    + simpl; lia.
Defined.

(** ** Tier catalogue *)

(** C3, as the code has it.  Looking up one of the three identifiers returns
    the catalogue tier with that identifier.  Looking up any other identifier
    returns [undefined] and raises nothing: a submission whose form carries
    such an identifier still reports a blank name or an amount that is not a
    number, and throws only when it comes to read the tier's amount. *)
Theorem getTier_lookup (tierId : TierId) :
  tierIds = ["tier1"; "tier2"; "tier3"]
  /\ (In tierId tierIds ->
      exists tier, getTier tierId = Some tier
                   /\ In tier TIERS /\ Tier.id tier = tierId)
  /\ (~ In tierId tierIds ->
      getTier tierId = None
      /\ forall uuid st,
           FormState.tierId (formState st) = tierId ->
           (JS.trim (FormState.name (formState st)) = "" ->
            handleSubmit uuid st = Some (setError EmptyNameError st))
           /\ (JS.trim (FormState.name (formState st)) <> "" ->
               JS.Number (FormState.amount (formState st)) = JS.NaN ->
               handleSubmit uuid st = Some (setError InvalidAmountError st))
           /\ (JS.trim (FormState.name (formState st)) <> "" ->
               JS.Number (FormState.amount (formState st)) <> JS.NaN ->
               handleSubmit uuid st = None)).
Proof.
  split; [reflexivity | split].
  - intros Hin. simpl in Hin.
    destruct Hin as [<- | [<- | [<- | []]]];
      eexists; (split; [reflexivity | split; [simpl; tauto | reflexivity]]).
  - intros Hnot.
    assert (Hnone : getTier tierId = None).
    { rewrite getTier_catalog.
      destruct (String.eqb "tier1" tierId) eqn:E1.
      { apply String.eqb_eq in E1. exfalso. apply Hnot. simpl. tauto. }
      destruct (String.eqb "tier2" tierId) eqn:E2.
      { apply String.eqb_eq in E2. exfalso. apply Hnot. simpl. tauto. }
      destruct (String.eqb "tier3" tierId) eqn:E3.
      { apply String.eqb_eq in E3. exfalso. apply Hnot. simpl. tauto. }
      reflexivity. }
    split; [exact Hnone |].
    intros uuid st Hform. rewrite <- Hform in Hnone.
    split; [| split].
    + intros Hn.
      destruct (handleSubmit_cases uuid st); try reflexivity; congruence.
    + intros Hn Ha.
      destruct (handleSubmit_cases uuid st); try reflexivity; congruence.
    + intros Hn Ha.
      destruct (handleSubmit_cases uuid st); try reflexivity; congruence.
Qed.

Lemma getTier_lookup_witness :
  (exists tier, getTier "tier2" = Some tier
                /\ In tier TIERS /\ Tier.id tier = "tier2")
  /\ getTier "tier4" = None
  /\ handleSubmit "id-ada" unknown_tier_blank
     = Some (setError EmptyNameError unknown_tier_blank)
  /\ handleSubmit "id-ada" unknown_tier_words
     = Some (setError InvalidAmountError unknown_tier_words)
  /\ handleSubmit "id-ada" unknown_tier_ready = None.
Proof.
  assert (Hnot : ~ In "tier4" tierIds)
    by (simpl; intros [H | [H | [H | []]]]; discriminate H).
  split.
  - apply (proj1 (proj2 (getTier_lookup "tier2"))). simpl. tauto.
  - destruct (proj2 (proj2 (getTier_lookup "tier4")) Hnot) as [Hnone Hsubmit].
    split; [exact Hnone |]. split; [| split].
    + apply (proj1 (Hsubmit "id-ada" unknown_tier_blank eq_refl)). reflexivity.
    + apply (proj1 (proj2 (Hsubmit "id-ada" unknown_tier_words eq_refl))).
      * discriminate.
      * vm_compute; reflexivity.
    + apply (proj2 (proj2 (Hsubmit "id-ada" unknown_tier_ready eq_refl))).
      * discriminate.
      * vm_compute; discriminate.
Defined.

(** C3 as stated fails: "tier4" is none of the three identifiers, the lookup
    gives [undefined], and yet nothing fails there: the submission that made
    the lookup goes on to the name check and returns with the message for a
    blank name. *)
Lemma unknown_tier_lookup_raises_nothing :
  ~ In (FormState.tierId (formState unknown_tier_blank)) tierIds
  /\ getTier (FormState.tierId (formState unknown_tier_blank)) = None
  /\ handleSubmit "id-ada" unknown_tier_blank
     = Some (setError EmptyNameError unknown_tier_blank)
  /\ handleSubmit "id-ada" unknown_tier_words
     = Some (setError InvalidAmountError unknown_tier_words).
Proof.
  split; [| repeat split].
  simpl. intros [H | [H | [H | []]]]; discriminate H.
Qed.

(** ** Week advancement *)

Lemma advanceWeeks_spec (n : nat) (st : AppState) :
  currentWeek (advanceWeeks n st) = currentWeek st + Z.of_nat n
  /\ members (advanceWeeks n st) = members st.
Proof.
  revert st. induction n as [| n IH]; intros st.
  - simpl. split; [lia | reflexivity].
  - cbn [advanceWeeks]. destruct (IH (advanceWeek st)) as [Hw Hm].
    rewrite Hw, Hm. simpl. split; [lia | reflexivity].
Qed.

(** C7.  [advanceWeek] adds exactly one to the week and always succeeds; [n]
    calls from week [w] give week [w + n]; the member list, hence every
    stored join week and weekly interest, is left as it was. *)
Theorem advanceWeek_counter (st : AppState) (n : nat) :
  step IncrementWeek st = Some (advanceWeek st)
  /\ currentWeek (advanceWeek st) = currentWeek st + 1
  /\ members (advanceWeek st) = members st
  /\ currentWeek (advanceWeeks n st) = currentWeek st + Z.of_nat n
  /\ members (advanceWeeks n st) = members st
  /\ map Member.startWeek (members (advanceWeeks n st))
     = map Member.startWeek (members st)
  /\ map Member.weeklyInterest (members (advanceWeeks n st))
     = map Member.weeklyInterest (members st).
Proof.
  destruct (advanceWeeks_spec n st) as [Hw Hm].
  rewrite Hm. repeat split; try reflexivity. exact Hw.
Qed.

(** ** Totals *)

Lemma fold_left_Qplus {A : Type} (f : A -> Q) (l : list A) (acc : Q) :
  (fold_left (fun sum x => sum + f x) l acc == acc + sumQ (map f l))%Q.
Proof.
  revert acc. induction l as [| x l IH]; intros acc; simpl.
  - ring.
  - rewrite IH. ring.
Qed.

(** C8.  The total weekly interest is the sum of the members' stored weekly
    interest, whatever the week: for any two weeks it is the same. *)
Theorem totalWeeklyInterest_week_independent
  (members : list Member.t) (w1 w2 : Z) :
  Totals.totalWeeklyInterest (totals members w1)
  = Totals.totalWeeklyInterest (totals members w2)
  /\ (Totals.totalWeeklyInterest (totals members w1)
      == sumQ (map Member.weeklyInterest members))%Q.
Proof.
  split; [reflexivity |].
  unfold totals; cbn [Totals.totalWeeklyInterest].
  rewrite fold_left_Qplus. ring.
Qed.

(** ** Runs and steps *)

Lemma run_reachable (evs : list Event) (st st' : AppState) :
  reachable st -> run evs st = Some st' -> reachable st'.
Proof.
  revert st. induction evs as [| ev evs IH]; intros st Hr Hrun; simpl in Hrun.
  - inversion Hrun; subst; assumption.
  - destruct (step ev st) as [st1 |] eqn:Es; [| discriminate].
    apply (IH st1); [| assumption].
    now apply (reachable_step ev st st1).
Qed.

Lemma handleSubmit_effect (uuid : string) (st st' : AppState) :
  handleSubmit uuid st = Some st' ->
  currentWeek st' = currentWeek st
  /\ ((error st' <> NoError
       /\ members st' = members st /\ formState st' = formState st)
      \/ (error st' = NoError
          /\ (List.length (members st) < MAX_MEMBERS)%nat
          /\ exists tier q,
               getTier (FormState.tierId (formState st)) = Some tier
               /\ strictEquals (JS.Number (FormState.amount (formState st)))
                    (Tier.amount tier) = Some q
               /\ members st' = members st ++ [newMemberOf uuid st tier q])).
Proof.
  intros H. pose proof (handleSubmit_cases uuid st) as Hc. rewrite H in Hc.
  inversion Hc; subst; cbn [currentWeek members formState error setError];
    (split; [reflexivity |]);
    try (left; repeat split; [discriminate]).
  right. split; [reflexivity | split; [assumption |]].
  exists tier, q. repeat split; assumption.
Qed.

Lemma step_effect (ev : Event) (st st' : AppState) :
  step ev st = Some st' ->
  (ev = IncrementWeek
   /\ currentWeek st' = currentWeek st + 1 /\ members st' = members st)
  \/ (currentWeek st' = currentWeek st
      /\ (members st' = members st
          \/ (exists memberId,
                members st'
                = filter (fun member =>
                            negb (String.eqb (Member.id member) memberId))
                    (members st))
          \/ (exists member,
                members st' = members st ++ [member]
                /\ Member.startWeek member = currentWeek st
                /\ (List.length (members st) < MAX_MEMBERS)%nat))).
Proof.
  destruct ev as [value | tierId | value | uuid | memberId |]; simpl; intros H.
  - inversion H; subst. right. split; [reflexivity | left; reflexivity].
  - unfold handleTierChange in H.
    destruct (getTier tierId); inversion H; subst.
    right. split; [reflexivity | left; reflexivity].
  - inversion H; subst. right. split; [reflexivity | left; reflexivity].
  - apply handleSubmit_effect in H.
    destruct H as [Hw [[_ [Hm _]] | [_ [Hlt [tier [q [_ [_ Hm]]]]]]]].
    + right. split; [assumption | left; assumption].
    + right. split; [assumption | right; right].
      exists (newMemberOf uuid st tier q). repeat split; assumption.
  - inversion H; subst. right. split; [reflexivity | right; left].
    exists memberId. reflexivity.
  - inversion H; subst. left. repeat split.
Qed.

Lemma filter_length_le {A : Type} (f : A -> bool) (l : list A) :
  (List.length (filter f l) <= List.length l)%nat.
Proof.
  induction l as [| x l IH]; simpl; [lia |].
  destruct (f x); simpl; lia.
Qed.

Lemma reachable_size (st : AppState) :
  reachable st -> (List.length (members st) <= MAX_MEMBERS)%nat.
Proof.
  induction 1 as [| ev st st' Hr IH Hs].
  - unfold MAX_MEMBERS; simpl; lia.
  - apply step_effect in Hs.
    destruct Hs as [[_ [_ Hm]] | [_ [Hm | [[memberId Hm] | [member [Hm [_ Hlt]]]]]]];
      rewrite Hm.
    + assumption.
    + assumption.
    + pose proof (filter_length_le
                    (fun member => negb (String.eqb (Member.id member) memberId))
                    (members st)).
      lia.
    + rewrite length_app. simpl. lia.
Qed.

Lemma reachable_weeks (st : AppState) :
  reachable st ->
  1 <= currentWeek st
  /\ Forall (fun member => Member.startWeek member <= currentWeek st) (members st).
Proof.
  induction 1 as [| ev st st' Hr [IHw IHm] Hs].
  - simpl. split; [lia | constructor].
  - apply step_effect in Hs.
    destruct Hs as [[_ [Hw Hm]] | [Hw [Hm | [[memberId Hm] | [member [Hm [Hj _]]]]]]];
      rewrite Hw, Hm; (split; [lia |]).
    + eapply Forall_impl; [| exact IHm]. simpl. intros; lia.
    + assumption.
    + apply Forall_forall. intros member Hin.
      apply filter_In in Hin. destruct Hin as [Hin _].
      rewrite Forall_forall in IHm. now apply IHm.
    + apply Forall_app. split; [assumption |].
      constructor; [lia | constructor].
Qed.

(** A step that leaves the part of the state under study as it was. *)
Ltac unchanged_by Hs IH := inversion Hs; subst; exact IH.

Lemma reachable_tierId (st : AppState) :
  reachable st -> In (FormState.tierId (formState st)) tierIds.
Proof.
  induction 1 as [| ev st st' Hr IH Hs].
  - simpl. tauto.
  - destruct ev as [value | tierId | value | uuid | memberId |]; simpl in Hs.
    + unchanged_by Hs IH.
    + unfold handleTierChange in Hs.
      destruct (getTier tierId) as [tier |] eqn:Et; inversion Hs; subst.
      cbn [formState setFormState FormState.tierId].
      apply getTier_Some in Et. destruct Et as [Hin <-].
      unfold tierIds. now apply in_map.
    + unchanged_by Hs IH.
    + pose proof (handleSubmit_cases uuid st) as Hc. rewrite Hs in Hc.
      inversion Hc; subst; exact IH.
    + unchanged_by Hs IH.
    + unchanged_by Hs IH.
Qed.

Lemma getTier_known (tierId : TierId) :
  In tierId tierIds -> exists tier, getTier tierId = Some tier.
Proof.
  simpl. intros [<- | [<- | [<- | []]]]; eexists; reflexivity.
Qed.

Lemma handleSubmit_returns (uuid : string) (st : AppState) :
  In (FormState.tierId (formState st)) tierIds ->
  exists st', handleSubmit uuid st = Some st'.
Proof.
  intros Hin. apply getTier_known in Hin. destruct Hin as [tier Ht].
  destruct (handleSubmit_cases uuid st); try (eexists; reflexivity).
  congruence.
Qed.

(** In a run of the component no handler ever throws. *)
Lemma reachable_step_total (ev : Event) (st : AppState) :
  reachable st ->
  (forall tierId, ev = TierChange tierId -> In tierId tierIds) ->
  exists st', step ev st = Some st'.
Proof.
  intros Hr Hev.
  destruct ev as [value | tierId | value | uuid | memberId |]; simpl;
    try (eexists; reflexivity).
  - destruct (getTier_known tierId (Hev tierId eq_refl)) as [tier Ht].
    unfold handleTierChange. rewrite Ht. eexists; reflexivity.
  - apply handleSubmit_returns. now apply reachable_tierId.
Qed.

(** ** Registration *)

(** C2, as the code has it.  A submission is checked in the fixed order
    (1) trimmed name non-empty, (2) the amount does not parse to NaN,
    (3) the amount equals the selected tier's deposit, (4) fewer than 12
    members, and the first failed check decides the message.  An amount that
    parses to NaN is rejected with [InvalidAmountError] before the tier and
    the capacity are looked at; an amount that parses to an infinity passes
    check (2) and is rejected by check (3) with [TierMismatchError]. *)
Theorem handleSubmit_validation_order (uuid : string) (st : AppState) :
  let trimmedName := JS.trim (FormState.name (formState st)) in
  let parsedAmount := JS.Number (FormState.amount (formState st)) in
  (trimmedName = "" ->
   handleSubmit uuid st = Some (setError EmptyNameError st))
  /\ (trimmedName <> "" -> parsedAmount = JS.NaN ->
      handleSubmit uuid st = Some (setError InvalidAmountError st))
  /\ (forall tier,
        getTier (FormState.tierId (formState st)) = Some tier ->
        trimmedName <> "" -> parsedAmount <> JS.NaN ->
        (strictEquals parsedAmount (Tier.amount tier) = None ->
         handleSubmit uuid st
         = Some (setError (TierMismatchError (Tier.name tier) (Tier.amount tier)) st))
        /\ (forall negative, parsedAmount = JS.Infinity negative ->
            handleSubmit uuid st
            = Some (setError (TierMismatchError (Tier.name tier) (Tier.amount tier)) st))
        /\ (forall q,
              strictEquals parsedAmount (Tier.amount tier) = Some q ->
              ((MAX_MEMBERS <= List.length (members st))%nat ->
               handleSubmit uuid st = Some (setError CapacityExceededError st))
              /\ ((List.length (members st) < MAX_MEMBERS)%nat ->
                  exists st',
                    handleSubmit uuid st = Some st'
                    /\ error st' = NoError
                    /\ members st' = members st ++ [newMemberOf uuid st tier q]))).
Proof.
  intros trimmedName parsedAmount. subst trimmedName parsedAmount.
  split; [| split].
  - intros Hn.
    destruct (handleSubmit_cases uuid st); try reflexivity; congruence.
  - intros Hn Ha.
    destruct (handleSubmit_cases uuid st) as
      [| | | | tier q _ _ Hs _ | tier q _ _ Hs _];
      try reflexivity; try congruence;
      rewrite Ha in Hs; discriminate Hs.
  - intros tier Ht Hn Ha.
    assert (Hmis : strictEquals (JS.Number (FormState.amount (formState st)))
                     (Tier.amount tier) = None ->
                   handleSubmit uuid st
                   = Some (setError (TierMismatchError (Tier.name tier)
                                       (Tier.amount tier)) st)).
    { intros Hs.
      destruct (handleSubmit_cases uuid st); congruence. }
    split; [exact Hmis | split].
    + intros negative Hinf. apply Hmis. rewrite Hinf. reflexivity.
    + intros q Hs. split; intros Hlen.
      * destruct (handleSubmit_cases uuid st);
          try reflexivity; try congruence; lia.
      * destruct (handleSubmit_cases uuid st) as
          [| | | | | tier' q' _ Ht' Hs' _]; try congruence; try lia.
        eexists. split; [reflexivity |]. split; [reflexivity |].
        cbn [members]. congruence.
Qed.

Lemma handleSubmit_validation_order_witness :
  handleSubmit "id-ada" name_of_NBSP = Some (setError EmptyNameError name_of_NBSP)
  /\ (exists st',
        handleSubmit "id-ada" padded_with_NBSP = Some st'
        /\ error st' = NoError
        /\ members st'
           = members padded_with_NBSP
             ++ [newMemberOf "id-ada" padded_with_NBSP tier1 10000])
  /\ handleSubmit "id-ada" blank_name = Some (setError EmptyNameError blank_name)
  /\ handleSubmit "id-ada" amount_in_words
     = Some (setError InvalidAmountError amount_in_words)
  /\ handleSubmit "id-ada" amount_of_tier2
     = Some (setError (TierMismatchError "Tier 1" 10000) amount_of_tier2)
  /\ handleSubmit "id-ada" amount_Infinity
     = Some (setError (TierMismatchError "Tier 1" 10000) amount_Infinity)
  /\ (exists full,
        run thirteenth_attempt initialState = Some full
        /\ handleSubmit "s13" full = Some (setError CapacityExceededError full))
  /\ (exists st',
        handleSubmit "id-ada" ada_ready = Some st'
        /\ error st' = NoError
        /\ members st' = members ada_ready ++ [newMemberOf "id-ada" ada_ready tier1 10000]).
Proof.
  split; [| split; [| split; [| split; [| split; [| split; [| split]]]]]].
  - apply (proj1 (handleSubmit_validation_order "id-ada" name_of_NBSP)).
    reflexivity.
  - destruct (proj2 (proj2 (handleSubmit_validation_order "id-ada" padded_with_NBSP))
                tier1) as [_ [_ Hequal]];
      [reflexivity | discriminate | vm_compute; discriminate |].
    apply (Hequal 10000%Q); [vm_compute; reflexivity | vm_compute; lia].
  - apply (proj1 (handleSubmit_validation_order "id-ada" blank_name)). reflexivity.
  - apply (proj1 (proj2 (handleSubmit_validation_order "id-ada" amount_in_words))).
    + discriminate.
    + vm_compute; reflexivity.
  - destruct (proj2 (proj2 (handleSubmit_validation_order "id-ada" amount_of_tier2))
                tier1) as [Hmismatch _];
      [reflexivity | discriminate | vm_compute; discriminate |].
    apply Hmismatch. vm_compute; reflexivity.
  - destruct (proj2 (proj2 (handleSubmit_validation_order "id-ada" amount_Infinity))
                tier1) as [_ [Hinfinite _]];
      [reflexivity | discriminate | vm_compute; discriminate |].
    apply (Hinfinite false). vm_compute; reflexivity.
  - eexists. split; [vm_compute; reflexivity |].
    match goal with
    | |- handleSubmit _ ?full = _ =>
        destruct (proj2 (proj2 (handleSubmit_validation_order "s13" full)) tier1)
          as [_ [_ Hequal]];
          [reflexivity | discriminate | vm_compute; discriminate |]
    end.
    apply (Hequal 10000%Q); [vm_compute; reflexivity | vm_compute; lia].
  - destruct (proj2 (proj2 (handleSubmit_validation_order "id-ada" ada_ready))
                tier1) as [_ [_ Hequal]];
      [reflexivity | discriminate | vm_compute; discriminate |].
    apply (Hequal 10000%Q); [vm_compute; reflexivity | vm_compute; lia].
Defined.

(** C2 as stated fails: "Infinity" and "1e999" do not parse to a finite
    number, yet the submission is rejected with [TierMismatchError], not with
    [InvalidAmountError]. *)
Lemma infinite_amount_not_InvalidAmountError :
  JS.trim (FormState.name (formState amount_Infinity)) = "Ada"
  /\ JS.Number (FormState.amount (formState amount_Infinity)) = JS.Infinity false
  /\ JS.Number (FormState.amount (formState amount_1e999)) = JS.Infinity false
  /\ handleSubmit "id-ada" amount_Infinity
     = Some (setError (TierMismatchError "Tier 1" 10000) amount_Infinity)
  /\ handleSubmit "id-ada" amount_1e999
     = Some (setError (TierMismatchError "Tier 1" 10000) amount_1e999)
  /\ TierMismatchError "Tier 1" 10000 <> InvalidAmountError.
Proof.
  repeat split; try (vm_compute; reflexivity). discriminate.
Qed.

(** C4.  A submission is all or nothing.  When a validation rule fails (the
    trimmed name is empty, the amount is not a number, the amount is not the
    selected tier's, or there are already 12 members) the handler returns
    with a message and the members and the week are exactly what they were.
    When every rule passes, the week is what it was and the member list is
    the old one with exactly one new member at the end.  Whatever it returns,
    it is one of the two; and with a catalogue tier selected it always
    returns. *)
Theorem handleSubmit_atomic (uuid : string) (st : AppState) :
  (In (FormState.tierId (formState st)) tierIds ->
   exists st', handleSubmit uuid st = Some st')
  /\ (forall st',
        handleSubmit uuid st = Some st' ->
        currentWeek st' = currentWeek st
        /\ ((error st' <> NoError /\ members st' = members st)
            \/ (error st' = NoError
                /\ (exists member,
                      members st' = members st ++ [member]
                      /\ Member.id member = uuid
                      /\ Member.startWeek member = currentWeek st)
                /\ List.length (members st') = S (List.length (members st))
                /\ firstn (List.length (members st)) (members st')
                   = members st)))
  /\ (JS.trim (FormState.name (formState st)) = ""
      \/ JS.Number (FormState.amount (formState st)) = JS.NaN ->
      exists st',
        handleSubmit uuid st = Some st'
        /\ error st' <> NoError
        /\ members st' = members st
        /\ currentWeek st' = currentWeek st)
  /\ (forall tier,
        getTier (FormState.tierId (formState st)) = Some tier ->
        (strictEquals (JS.Number (FormState.amount (formState st)))
           (Tier.amount tier) = None
         \/ (MAX_MEMBERS <= List.length (members st))%nat ->
         exists st',
           handleSubmit uuid st = Some st'
           /\ error st' <> NoError
           /\ members st' = members st
           /\ currentWeek st' = currentWeek st)
        /\ (forall q,
              JS.trim (FormState.name (formState st)) <> "" ->
              strictEquals (JS.Number (FormState.amount (formState st)))
                (Tier.amount tier) = Some q ->
              (List.length (members st) < MAX_MEMBERS)%nat ->
              exists st',
                handleSubmit uuid st = Some st'
                /\ error st' = NoError
                /\ members st' = members st ++ [newMemberOf uuid st tier q]
                /\ List.length (members st') = S (List.length (members st))
                /\ currentWeek st' = currentWeek st)).
Proof.
  split; [apply handleSubmit_returns | split; [| split]].
  - intros st' H. apply handleSubmit_effect in H.
    destruct H as [Hw [[He [Hm _]] | [He [_ [tier [q [_ [_ Hm]]]]]]]].
    + split; [assumption | left; split; assumption].
    + split; [assumption | right]. split; [assumption |]. rewrite Hm.
      split; [| split].
      * exists (newMemberOf uuid st tier q). repeat split.
      * rewrite length_app. simpl. lia.
      * rewrite firstn_app, Nat.sub_diag, firstn_all. simpl. apply app_nil_r.
  - intros Hfail.
    destruct (handleSubmit_cases uuid st) as
      [Hn | Hn Ha | Hn Ha Hu | tier Hn Ha Ht Hm | tier q Hn Ht Hq Hfull
       | tier q Hn Ht Hq Hfree];
      try (eexists; split; [reflexivity |]; repeat split; discriminate).
    + destruct Hfail as [Hb | Hb]; congruence.
    + destruct Hfail as [Hb | Hb]; [congruence |].
      rewrite Hb in Hq. discriminate Hq.
  - intros tier Ht. split.
    + intros Hfail.
      destruct (handleSubmit_cases uuid st) as
        [Hn | Hn Ha | Hn Ha Hu | tier' Hn Ha Ht' Hm | tier' q Hn Ht' Hq Hfull
         | tier' q Hn Ht' Hq Hfree];
        try (eexists; split; [reflexivity |]; repeat split; discriminate).
      * congruence.
      * assert (tier' = tier) by congruence. subst tier'.
        destruct Hfail as [Hb | Hb]; [congruence | unfold MAX_MEMBERS in *; lia].
    + intros q Hn Hq Hfree.
      pose proof (isNaN_false _ (strictEquals_not_NaN _ _ _ Hq)) as Ha.
      destruct (handleSubmit_cases uuid st) as
        [Hn' | Hn' Ha' | Hn' Ha' Hu | tier' Hn' Ha' Ht' Hm
         | tier' q' Hn' Ht' Hq' Hfull | tier' q' Hn' Ht' Hq' Hfree'];
        try congruence.
      * unfold MAX_MEMBERS in *. lia.
      * assert (tier' = tier) by congruence. subst tier'.
        assert (q' = q) by congruence. subst q'.
        eexists. split; [reflexivity |]. cbn [error members currentWeek].
        repeat split. rewrite length_app. simpl. lia.
Qed.

Lemma handleSubmit_atomic_witness :
  (exists st',
     handleSubmit "id-ada" ada_ready = Some st'
     /\ error st' = NoError
     /\ members st' = members ada_ready ++ [newMemberOf "id-ada" ada_ready tier1 10000]
     /\ List.length (members st') = S (List.length (members ada_ready))
     /\ currentWeek st' = currentWeek ada_ready)
  /\ (exists st',
        handleSubmit "id-ada" amount_of_tier2 = Some st'
        /\ error st' <> NoError
        /\ members st' = members amount_of_tier2
        /\ currentWeek st' = currentWeek amount_of_tier2)
  /\ (exists st',
        handleSubmit "id-ada" name_of_NBSP = Some st'
        /\ error st' <> NoError
        /\ members st' = members name_of_NBSP
        /\ currentWeek st' = currentWeek name_of_NBSP)
  /\ (exists st',
        handleSubmit "s13" (stateOf thirteenth_attempt) = Some st'
        /\ error st' <> NoError
        /\ members st' = members (stateOf thirteenth_attempt)
        /\ currentWeek st' = currentWeek (stateOf thirteenth_attempt)).
Proof.
  split; [| split; [| split]].
  - apply (proj2 (proj2 (proj2 (proj2 (handleSubmit_atomic "id-ada" ada_ready)))
                   tier1 eq_refl) 10000%Q).
    + discriminate.
    + vm_compute; reflexivity.
    + vm_compute; lia.
  - apply (proj1 (proj2 (proj2 (proj2 (handleSubmit_atomic "id-ada" amount_of_tier2)))
                   tier1 eq_refl)).
    left. vm_compute; reflexivity.
  - apply (proj1 (proj2 (proj2 (handleSubmit_atomic "id-ada" name_of_NBSP)))).
    left. reflexivity.
  - apply (proj1 (proj2 (proj2 (proj2
                   (handleSubmit_atomic "s13" (stateOf thirteenth_attempt))))
                   tier1 eq_refl)).
    right. vm_compute; lia.
Defined.

(** ** Capacity *)

(** C5.  In every reachable state the group has between 0 and 12 members;
    and when it has 12, a submission that passes the name and amount checks
    is rejected with [CapacityExceededError], leaving the members, the week
    and the form as they were. *)
Theorem capacity_invariant (st : AppState) :
  reachable st ->
  (0 <= List.length (members st) <= 12)%nat
  /\ (forall uuid tier q,
        List.length (members st) = 12%nat ->
        JS.trim (FormState.name (formState st)) <> "" ->
        getTier (FormState.tierId (formState st)) = Some tier ->
        strictEquals (JS.Number (FormState.amount (formState st)))
          (Tier.amount tier) = Some q ->
        exists st',
          handleSubmit uuid st = Some st'
          /\ error st' = CapacityExceededError
          /\ members st' = members st
          /\ currentWeek st' = currentWeek st
          /\ formState st' = formState st).
Proof.
  intros Hr. split.
  - pose proof (reachable_size st Hr) as H. unfold MAX_MEMBERS in H. lia.
  - intros uuid tier q Hlen Hn Ht Hs.
    exists (setError CapacityExceededError st).
    split; [| repeat split].
    pose proof (isNaN_false _ (strictEquals_not_NaN _ _ _ Hs)) as Ha.
    destruct (handleSubmit_cases uuid st); try congruence; try reflexivity.
    unfold MAX_MEMBERS in *. lia.
Qed.

Lemma capacity_invariant_witness :
  exists st,
    run thirteenth_attempt initialState = Some st
    /\ List.length (members st) = 12%nat
    /\ exists st',
         handleSubmit "s13" st = Some st'
         /\ error st' = CapacityExceededError
         /\ members st' = members st
         /\ currentWeek st' = currentWeek st
         /\ formState st' = formState st.
Proof.
  eexists. split; [vm_compute; reflexivity |]. split; [reflexivity |].
  match goal with
  | |- exists st', handleSubmit _ ?st = _ /\ _ =>
      assert (Hr : reachable st)
        by (apply (run_reachable thirteenth_attempt initialState);
            [apply reachable_init | vm_compute; reflexivity]);
      apply (proj2 (capacity_invariant st Hr) "s13" tier1 10000%Q)
  end.
  - reflexivity.
  - discriminate.
  - reflexivity.
  - vm_compute; reflexivity.
Defined.

(** ** Withdrawal *)

(** C6.  [handleWithdraw] leaves the week alone and keeps exactly the members
    whose identifier differs from [memberId]; when one member carries that
    identifier the list is the old one without it, the others in their
    order; when none does the state is unchanged; a second withdrawal of the
    same identifier changes nothing. *)
Theorem handleWithdraw_removes (memberId : string) (st : AppState) :
  currentWeek (handleWithdraw memberId st) = currentWeek st
  /\ (forall member,
        In member (members (handleWithdraw memberId st))
        <-> In member (members st) /\ Member.id member <> memberId)
  /\ (forall before member after,
        members st = before ++ member :: after ->
        Member.id member = memberId ->
        (forall other, In other (before ++ after) -> Member.id other <> memberId) ->
        members (handleWithdraw memberId st) = before ++ after)
  /\ ((forall member, In member (members st) -> Member.id member <> memberId) ->
      handleWithdraw memberId st = st)
  /\ handleWithdraw memberId (handleWithdraw memberId st)
     = handleWithdraw memberId st.
Proof.
  set (keep := fun member : Member.t => negb (String.eqb (Member.id member) memberId)).
  assert (Hkeep : forall l : list Member.t,
             (forall member, In member l -> Member.id member <> memberId) ->
             filter keep l = l).
  { induction l as [| x l IH]; intros H; simpl; [reflexivity |].
    unfold keep at 1.
    destruct (String.eqb (Member.id x) memberId) eqn:E; simpl.
    - apply String.eqb_eq in E. exfalso. apply (H x); [now left | exact E].
    - f_equal. apply IH. intros m Hm. apply H. now right. }
  split; [reflexivity | split; [| split; [| split]]].
  - intros member. unfold handleWithdraw, setMembers; cbn [members].
    fold keep. rewrite filter_In. unfold keep.
    rewrite negb_true_iff, String.eqb_neq. tauto.
  - intros before member after Hm Hid Hothers.
    unfold handleWithdraw, setMembers; cbn [members]. fold keep.
    rewrite Hm, filter_app. simpl. unfold keep at 2.
    rewrite (proj2 (String.eqb_eq _ _) Hid). simpl.
    rewrite !Hkeep; [reflexivity | |];
      intros m Hin; apply Hothers; apply in_or_app; tauto.
  - intros Hnone. destruct st as [ms w f e].
    unfold handleWithdraw, setMembers; cbn [members currentWeek formState error].
    fold keep. rewrite Hkeep; [reflexivity | exact Hnone].
  - unfold handleWithdraw, setMembers; cbn [members currentWeek formState error].
    fold keep. f_equal. apply Hkeep.
    intros m Hin. apply filter_In in Hin. destruct Hin as [_ Hk].
    unfold keep in Hk. apply negb_true_iff in Hk. now apply String.eqb_neq.
Qed.

Lemma handleWithdraw_removes_witness :
  exists st,
    run three_members initialState = Some st
    /\ map Member.id (members st) = ["s01"; "s02"; "s03"]
    /\ map Member.id (members (handleWithdraw "s02" st)) = ["s01"; "s03"]
    /\ handleWithdraw "s09" st = st.
Proof.
  eexists. split; [vm_compute; reflexivity |]. split; [reflexivity |].
  match goal with
  | |- _ /\ handleWithdraw _ ?st = _ =>
      pose proof (handleWithdraw_removes "s02" st) as H2;
      pose proof (handleWithdraw_removes "s09" st) as H9
  end.
  split.
  - destruct H2 as [_ [_ [H _]]].
    match goal with
    | |- map _ (members (handleWithdraw _
                           {| members := [?a; ?b; ?c]; currentWeek := _;
                              formState := _; error := _ |})) = _ =>
        rewrite (H [a] b [c])
    end.
    + reflexivity.
    + reflexivity.
    + reflexivity.
    + simpl. intros other [<- | [<- | []]]; discriminate.
  - destruct H9 as [_ [_ [_ [H _]]]]. apply H.
    simpl. intros member [<- | [<- | [<- | []]]]; discriminate.
Defined.

(** ** Join weeks *)

(** C9.  In every reachable state the week is at least 1 and every member
    joined in a week not after the current one; a step never lowers the week,
    only the week button changes it, and a member that a step adds joined in
    the week of that step. *)
Theorem startWeek_le_currentWeek (st : AppState) :
  reachable st ->
  Forall (fun member => Member.startWeek member <= currentWeek st) (members st)
  /\ 1 <= currentWeek st
  /\ (forall ev st',
        step ev st = Some st' ->
        currentWeek st <= currentWeek st'
        /\ (currentWeek st' <> currentWeek st -> ev = IncrementWeek)
        /\ (forall member,
              In member (members st') ->
              In member (members st) \/ Member.startWeek member = currentWeek st)).
Proof.
  intros Hr. destruct (reachable_weeks st Hr) as [Hw Hm].
  split; [exact Hm | split; [exact Hw |]].
  intros ev st' Hs. apply step_effect in Hs.
  destruct Hs as [[He [Hw' Hm']] | [Hw' [Hm' | [[memberId Hm'] | [member [Hm' [Hj _]]]]]]];
    rewrite Hw', Hm'.
  - split; [lia | split; [intros _; exact He | intros m Hin; now left]].
  - split; [lia | split; [congruence | intros m Hin; now left]].
  - split; [lia | split; [congruence |]].
    intros m Hin. apply filter_In in Hin. left. tauto.
  - split; [lia | split; [congruence |]].
    intros m Hin. apply in_app_or in Hin.
    destruct Hin as [Hin | [<- | []]]; [now left | now right].
Qed.

Lemma startWeek_le_currentWeek_witness :
  exists st,
    run (tier3_joins_week4 ++ [IncrementWeek]) initialState = Some st
    /\ currentWeek st = 5
    /\ Forall (fun member => Member.startWeek member <= 5) (members st)
    /\ map Member.startWeek (members st) = [4].
Proof.
  eexists. split; [vm_compute; reflexivity |]. split; [reflexivity |].
  split; [| reflexivity].
  match goal with
  | |- Forall _ (members ?st) =>
      assert (Hr : reachable st)
        by (apply (run_reachable (tier3_joins_week4 ++ [IncrementWeek]) initialState);
            [apply reachable_init | vm_compute; reflexivity]);
      exact (proj1 (startWeek_le_currentWeek st Hr))
  end.
Defined.

(** ** Members of a run are catalogue members *)

Lemma catalogMember_interest_pos (member : Member.t) :
  catalogMember member -> (0 < Member.weeklyInterest member)%Q.
Proof.
  intros [tier [Hin [_ [Ha Hw]]]]. rewrite Hw, Ha.
  simpl in Hin. destruct Hin as [<- | [<- | [<- | []]]]; reflexivity.
Qed.

Lemma newMemberOf_catalog (uuid : string) (st : AppState) (tier : Tier.t) (q : Q) :
  getTier (FormState.tierId (formState st)) = Some tier ->
  strictEquals (JS.Number (FormState.amount (formState st))) (Tier.amount tier)
  = Some q ->
  catalogMember (newMemberOf uuid st tier q).
Proof.
  intros Ht Hs. apply getTier_Some in Ht. apply strictEquals_Some in Hs.
  exists tier. simpl. repeat split; tauto.
Qed.

Lemma reachable_catalog (st : AppState) :
  reachable st -> Forall catalogMember (members st).
Proof.
  induction 1 as [| ev st st' Hr IH Hs].
  - constructor.
  - destruct ev as [value | tierId | value | uuid | memberId |]; simpl in Hs.
    + unchanged_by Hs IH.
    + unfold handleTierChange in Hs.
      destruct (getTier tierId); inversion Hs; subst. exact IH.
    + unchanged_by Hs IH.
    + apply handleSubmit_effect in Hs.
      destruct Hs as [_ [[_ [Hm _]] | [_ [_ [tier [q [Ht [Hq Hm]]]]]]]];
        rewrite Hm; [exact IH |].
      apply Forall_app. split; [exact IH |].
      constructor; [| constructor]. now apply newMemberOf_catalog.
    + inversion Hs; subst. cbn [members handleWithdraw setMembers].
      apply Forall_forall. intros member Hin. apply filter_In in Hin.
      rewrite Forall_forall in IH. apply IH. tauto.
    + unchanged_by Hs IH.
Qed.

(** Every member of a reachable state earns a positive weekly interest, and
    their projected payout grows with each further week. *)
Lemma reachable_payout_grows (st : AppState) (member : Member.t) (w : Z) :
  reachable st -> In member (members st) -> currentWeek st <= w ->
  (0 < Member.weeklyInterest member)%Q
  /\ (computeProjectedTotal member w < computeProjectedTotal member (w + 1))%Q.
Proof.
  intros Hr Hin Hw.
  pose proof (reachable_catalog st Hr) as Hc.
  pose proof (proj2 (reachable_weeks st Hr)) as Hj.
  rewrite Forall_forall in Hc, Hj.
  pose proof (catalogMember_interest_pos member (Hc member Hin)) as Hpos.
  split; [exact Hpos |].
  apply computeProjectedTotal_lt_next; [exact Hpos |].
  specialize (Hj member Hin). simpl in Hj. lia.
Qed.

(** ** White space *)

Lemma trimStart_spec (n : nat) (s : string) :
  (String.length s <= n)%nat ->
  JS.startsWithWhiteSpace (JS.trimStart s) = false
  /\ (String.length (JS.trimStart s) <= String.length s)%nat.
Proof.
  revert s. induction n as [| n IH]; intros s Hn.
  - destruct s; simpl in Hn; [| lia]. split; [reflexivity | simpl; lia].
  - destruct s as [| a [| b [| c r3]]]; cbn [JS.trimStart].
    + split; [reflexivity | simpl; lia].
    + destruct (JS.isWhiteSpace (String a "")) eqn:Ea.
      * split; [reflexivity | simpl; lia].
      * split; [cbn [JS.startsWithWhiteSpace]; now rewrite Ea | lia].
    + destruct (JS.isWhiteSpace (String a "")) eqn:Ea.
      * destruct (IH (String b "")) as [H1 H2]; [simpl in *; lia |].
        split; [exact H1 | simpl in *; lia].
      * destruct (JS.isWhiteSpace (String a (String b ""))) eqn:Eb.
        -- split; [reflexivity | simpl; lia].
        -- split; [cbn [JS.startsWithWhiteSpace]; now rewrite Ea, Eb | lia].
    + destruct (JS.isWhiteSpace (String a "")) eqn:Ea.
      * destruct (IH (String b (String c r3))) as [H1 H2]; [simpl in *; lia |].
        split; [exact H1 | simpl in *; lia].
      * destruct (JS.isWhiteSpace (String a (String b ""))) eqn:Eb.
        -- destruct (IH (String c r3)) as [H1 H2]; [simpl in *; lia |].
           split; [exact H1 | simpl in *; lia].
        -- destruct (JS.isWhiteSpace (String a (String b (String c "")))) eqn:Ec.
           ++ destruct (IH r3) as [H1 H2]; [simpl in *; lia |].
              split; [exact H1 | simpl in *; lia].
           ++ split; [cbn [JS.startsWithWhiteSpace]; now rewrite Ea, Eb, Ec | lia].
Qed.

Lemma trimStart_fixed (s : string) :
  JS.startsWithWhiteSpace s = false -> JS.trimStart s = s.
Proof.
  destruct s as [| a [| b [| c r3]]];
    cbn [JS.startsWithWhiteSpace JS.trimStart];
    try reflexivity;
    destruct (JS.isWhiteSpace (String a "")); try discriminate;
    try reflexivity;
    destruct (JS.isWhiteSpace (String a (String b ""))); try discriminate;
    try reflexivity;
    destruct (JS.isWhiteSpace (String a (String b (String c ""))));
    try discriminate; reflexivity.
Qed.

Lemma trimEnd_cons (a : ascii) (r : string) :
  JS.trimEnd (String a r) = ""
  \/ JS.trimEnd (String a r) = String a (JS.trimEnd r).
Proof.
  cbn [JS.trimEnd]. destruct (JS.isWhiteSpace (String a (JS.trimEnd r))); auto.
Qed.

Lemma trimEnd_idempotent (s : string) : JS.trimEnd (JS.trimEnd s) = JS.trimEnd s.
Proof.
  induction s as [| a r IH]; [reflexivity |].
  cbn [JS.trimEnd].
  destruct (JS.isWhiteSpace (String a (JS.trimEnd r))) eqn:E; [reflexivity |].
  cbn [JS.trimEnd]. rewrite IH, E. reflexivity.
Qed.

(** What [trimEnd] keeps is a prefix of the text, so it starts with white
    space only if the text does. *)
Lemma trimEnd_no_leading (s : string) :
  JS.startsWithWhiteSpace s = false ->
  JS.startsWithWhiteSpace (JS.trimEnd s) = false.
Proof.
  destruct s as [| a r1]; [reflexivity |]. intros H.
  destruct (trimEnd_cons a r1) as [E | E]; rewrite E; [reflexivity |].
  cbn [JS.startsWithWhiteSpace] in *.
  destruct (JS.isWhiteSpace (String a "")); [discriminate H |].
  cbn [orb] in *.
  destruct r1 as [| b r2]; [reflexivity |].
  destruct (trimEnd_cons b r2) as [E1 | E1]; rewrite E1; [reflexivity |].
  destruct (JS.isWhiteSpace (String a (String b ""))); [discriminate H |].
  cbn [orb] in *.
  destruct r2 as [| c r3]; [reflexivity |].
  destruct (trimEnd_cons c r3) as [E2 | E2]; rewrite E2; [reflexivity |].
  exact H.
Qed.

Lemma trim_idempotent (s : string) : JS.trim (JS.trim s) = JS.trim s.
Proof.
  unfold JS.trim.
  destruct (trimStart_spec (String.length s) s (le_n _)) as [H _].
  rewrite (trimStart_fixed _ (trimEnd_no_leading _ H)).
  apply trimEnd_idempotent.
Qed.

Lemma Number_trim (text : string) : JS.Number (JS.trim text) = JS.Number text.
Proof.
  unfold JS.Number, JS.StringToNumber. now rewrite trim_idempotent.
Qed.

(** ** Invariants of the member list, in general *)

(** A property of members holds throughout a run as soon as it holds of
    every member that a submission can append. *)
Lemma reachable_members_Forall (P : Member.t -> Prop) :
  (forall uuid st tier q,
     reachable st ->
     JS.trim (FormState.name (formState st)) <> "" ->
     getTier (FormState.tierId (formState st)) = Some tier ->
     strictEquals (JS.Number (FormState.amount (formState st)))
       (Tier.amount tier) = Some q ->
     P (newMemberOf uuid st tier q)) ->
  forall st, reachable st -> Forall P (members st).
Proof.
  intros Hnew. induction 1 as [| ev st st' Hr IH Hs].
  - constructor.
  - destruct ev as [value | tierId | value | uuid | memberId |]; simpl in Hs.
    + unchanged_by Hs IH.
    + unfold handleTierChange in Hs.
      destruct (getTier tierId); inversion Hs; subst. exact IH.
    + unchanged_by Hs IH.
    + pose proof (handleSubmit_cases uuid st) as Hc. rewrite Hs in Hc.
      inversion Hc; subst; try exact IH.
      cbn [members]. apply Forall_app. split; [exact IH |].
      constructor; [| constructor]. now apply Hnew.
    + inversion Hs; subst. cbn [members handleWithdraw setMembers].
      apply Forall_forall. intros member Hin. apply filter_In in Hin.
      rewrite Forall_forall in IH. apply IH. tauto.
    + unchanged_by Hs IH.
Qed.

Lemma reachable_stateOf (evs : list Event) : reachable (stateOf evs).
Proof.
  unfold stateOf. destruct (run evs initialState) as [st |] eqn:E.
  - apply (run_reachable evs initialState); [apply reachable_init | exact E].
  - apply reachable_init.
Qed.

(** ** The tier selector *)

Lemma Number_toString_amount (tier : Tier.t) :
  In tier TIERS ->
  JS.Number (JS.toString (Tier.amount tier))
  = JS.Finite (inject_Z (Tier.amount tier)).
Proof.
  simpl. intros [<- | [<- | [<- | []]]]; vm_compute; reflexivity.
Qed.

(** X1.  Selecting a catalogue tier stores its identifier in the form and
    replaces the amount field by the text of the tier's deposit, which parses
    back to exactly that deposit; the name, the members, the week and the
    message stay.  Selecting any other identifier throws. *)
Theorem handleTierChange_effect (tierId : TierId) (st : AppState) :
  (In tierId tierIds ->
   exists tier st',
     getTier tierId = Some tier
     /\ handleTierChange tierId st = Some st'
     /\ FormState.tierId (formState st') = tierId
     /\ FormState.amount (formState st') = JS.toString (Tier.amount tier)
     /\ strictEquals (JS.Number (FormState.amount (formState st')))
          (Tier.amount tier) = Some (inject_Z (Tier.amount tier))
     /\ FormState.name (formState st') = FormState.name (formState st)
     /\ members st' = members st
     /\ currentWeek st' = currentWeek st
     /\ error st' = error st)
  /\ (~ In tierId tierIds -> handleTierChange tierId st = None).
Proof.
  split.
  - intros Hin. destruct (getTier_known tierId Hin) as [tier Ht].
    exists tier. eexists. split; [exact Ht |].
    unfold handleTierChange. rewrite Ht. split; [reflexivity |].
    cbn [formState setFormState FormState.tierId FormState.amount FormState.name
           members currentWeek error].
    apply getTier_Some in Ht. destruct Ht as [Hcat _].
    rewrite (Number_toString_amount tier Hcat).
    repeat split. simpl. now rewrite Qeq_bool_refl.
  - intros Hnot. unfold handleTierChange.
    destruct (getTier tierId) as [tier |] eqn:Ht; [| reflexivity].
    exfalso. apply Hnot. apply getTier_Some in Ht. destruct Ht as [Hcat <-].
    unfold tierIds. now apply in_map.
Qed.

Lemma handleTierChange_effect_witness :
  (exists st',
     handleTierChange "tier2" ada_ready = Some st'
     /\ FormState.tierId (formState st') = "tier2"
     /\ FormState.amount (formState st') = "20000"
     /\ FormState.name (formState st') = "Ada")
  /\ handleTierChange "gold" ada_ready = None.
Proof.
  split.
  - destruct (proj1 (handleTierChange_effect "tier2" ada_ready))
      as [tier [st' [Ht [Hs [Hid [Ha [_ [Hn _]]]]]]]]; [simpl; tauto |].
    exists st'. split; [exact Hs |]. split; [exact Hid |].
    split; [| exact Hn].
    rewrite Ha. vm_compute in Ht. inversion Ht; subst. reflexivity.
  - apply (proj2 (handleTierChange_effect "gold" ada_ready)).
    simpl. intros [H | [H | [H | []]]]; discriminate H.
Defined.

(** X2.  After a catalogue tier is selected, a submission with a non-blank
    name and a free slot registers a member of that tier: the deposit is the
    tier's, the weekly interest is deposit × rate, the join week is the
    current week, and the name is the trimmed name. *)
Theorem tierChange_then_submit (uuid : string) (tierId : TierId) (st : AppState) :
  In tierId tierIds ->
  JS.trim (FormState.name (formState st)) <> "" ->
  (List.length (members st) < MAX_MEMBERS)%nat ->
  exists tier st1 st2 member,
    getTier tierId = Some tier
    /\ handleTierChange tierId st = Some st1
    /\ handleSubmit uuid st1 = Some st2
    /\ error st2 = NoError
    /\ members st2 = members st ++ [member]
    /\ Member.id member = uuid
    /\ Member.name member = JS.trim (FormState.name (formState st))
    /\ Member.tierId member = tierId
    /\ Member.amount member = inject_Z (Tier.amount tier)
    /\ Member.weeklyInterest member
       = (inject_Z (Tier.amount tier) * Tier.rate tier)%Q
    /\ Member.startWeek member = currentWeek st.
Proof.
  intros Hin Hname Hlen.
  destruct (getTier_known tierId Hin) as [tier Ht].
  pose proof (getTier_Some tierId tier Ht) as [Hcat Hid].
  set (st1 := setFormState
                (fun prev => FormState.mk (FormState.name prev) tierId
                               (JS.toString (Tier.amount tier))) st).
  assert (H1 : handleTierChange tierId st = Some st1)
    by (unfold handleTierChange; now rewrite Ht).
  assert (Hnum : JS.Number (FormState.amount (formState st1))
                 = JS.Finite (inject_Z (Tier.amount tier)))
    by exact (Number_toString_amount tier Hcat).
  assert (Hname1 : JS.trim (FormState.name (formState st1))
                   = JS.trim (FormState.name (formState st))) by reflexivity.
  assert (Htier1 : FormState.tierId (formState st1) = tierId) by reflexivity.
  assert (Hmem1 : members st1 = members st) by reflexivity.
  exists tier, st1.
  destruct (handleSubmit_cases uuid st1) as
    [Hn | Hn Ha | Hn Ha Hu | tier' Hn Ha Ht' Hm | tier' q Hn Ht' Hq Hfull
     | tier' q Hn Ht' Hq Hfree];
    rewrite ?Hname1, ?Htier1, ?Hnum, ?Hmem1 in *; try congruence.
  - assert (tier' = tier) by congruence. subst tier'.
    simpl in Hm. rewrite Qeq_bool_refl in Hm. discriminate Hm.
  - unfold MAX_MEMBERS in *. lia.
  - assert (tier' = tier) by congruence. subst tier'.
    simpl in Hq. rewrite Qeq_bool_refl in Hq.
    assert (q = inject_Z (Tier.amount tier)) by congruence. subst q.
    eexists. exists (newMemberOf uuid st1 tier (inject_Z (Tier.amount tier))).
    split; [exact Ht |]. split; [exact H1 |]. split; [reflexivity |].
    repeat split; try reflexivity; exact Hid.
Qed.

Lemma tierChange_then_submit_witness :
  exists st2 member,
    option_map (handleSubmit "id-ada")
      (handleTierChange "tier3" ada_ready) = Some (Some st2)
    /\ members st2 = [member]
    /\ Member.name member = "Ada"
    /\ Member.amount member = 30000%Q
    /\ (Member.weeklyInterest member == 6000)%Q.
Proof.
  destruct (tierChange_then_submit "id-ada" "tier3" ada_ready)
    as [tier [st1 [st2 [member H]]]].
  - simpl. tauto.
  - discriminate.
  - unfold MAX_MEMBERS. simpl. lia.
  - destruct H as [Ht [H1 [H2 [_ [Hm [_ [Hn [_ [Ha [Hw _]]]]]]]]]].
    vm_compute in Ht. inversion Ht; subst tier.
    exists st2, member. rewrite H1. cbn [option_map]. rewrite H2.
    split; [reflexivity |]. split; [exact Hm |]. split; [exact Hn |].
    split; [exact Ha |]. rewrite Hw. reflexivity.
Defined.

(** ** What a run never does *)

Lemma getTier_of_catalog (tier : Tier.t) :
  In tier TIERS -> getTier (Tier.id tier) = Some tier.
Proof. simpl. intros [<- | [<- | [<- | []]]]; reflexivity. Qed.

Lemma renderRows_defined (currentWeek : Z) (members : list Member.t) :
  Forall catalogMember members ->
  exists rows,
    renderRows currentWeek members = Some rows
    /\ map Row.student rows = map Member.name members
    /\ map Row.projectedTotal rows
       = map (fun member => computeProjectedTotal member currentWeek) members.
Proof.
  induction 1 as [| member rest [tier [Hcat [Hid _]]] _ [rows [Hr [Hs Hp]]]].
  - exists []. repeat split.
  - cbn [renderRows]. unfold renderRow.
    rewrite Hid, (getTier_of_catalog tier Hcat), Hr.
    eexists. split; [reflexivity |]. simpl. now rewrite Hs, Hp.
Qed.

(** X3.  In every reachable state a submission returns (it never reads a
    property of an undefined tier), and so does rendering: the view has one
    row per member, in order, each with the member's projected payout. *)
Theorem run_never_throws (st : AppState) :
  reachable st ->
  (forall uuid, exists st', handleSubmit uuid st = Some st')
  /\ exists view,
       render st = Some view
       /\ map Row.student (View.rows view) = map Member.name (members st)
       /\ map Row.projectedTotal (View.rows view)
          = map (fun member => computeProjectedTotal member (currentWeek st))
              (members st)
       /\ View.amountMin view = View.amountMax view.
Proof.
  intros Hr. split.
  - intros uuid. apply handleSubmit_returns. now apply reachable_tierId.
  - destruct (getTier_known _ (reachable_tierId st Hr)) as [tier Ht].
    destruct (renderRows_defined (currentWeek st) (members st)
                (reachable_catalog st Hr)) as [rows [Hrows [Hs Hp]]].
    unfold render. rewrite Ht, Hrows. eexists. split; [reflexivity |].
    cbn [View.rows View.amountMin View.amountMax]. repeat split; assumption.
Qed.

Lemma run_never_throws_witness :
  exists view,
    render (stateOf three_members) = Some view
    /\ map Row.student (View.rows view) = ["s01"; "s02"; "s03"]
    /\ View.week view = 3.
Proof.
  destruct (proj2 (run_never_throws (stateOf three_members)
                     (reachable_stateOf three_members)))
    as [view [Hv [Hs _]]].
  exists view. split; [exact Hv |]. split; [exact Hs |].
  vm_compute in Hv. inversion Hv. reflexivity.
Defined.

(** X4.  Every member of a reachable state carries the figures of a tier of
    the catalogue: the tier's deposit and deposit × rate as weekly interest,
    that is 500, 2000 or 6000 a week. *)
Theorem members_are_catalogue (st : AppState) :
  reachable st ->
  Forall
    (fun member =>
       exists tier,
         getTier (Member.tierId member) = Some tier
         /\ (Member.amount member == inject_Z (Tier.amount tier))%Q
         /\ (Member.weeklyInterest member
             == inject_Z (Tier.amount tier) * Tier.rate tier)%Q
         /\ ((Member.weeklyInterest member == 500)%Q
             \/ (Member.weeklyInterest member == 2000)%Q
             \/ (Member.weeklyInterest member == 6000)%Q))
    (members st).
Proof.
  intros Hr. eapply Forall_impl; [| exact (reachable_catalog st Hr)].
  intros member [tier [Hcat [Hid [Ha Hw]]]]. exists tier.
  rewrite Hid. split; [now apply getTier_of_catalog |].
  split; [exact Ha |]. rewrite Hw, Ha. split; [reflexivity |].
  simpl in Hcat. destruct Hcat as [<- | [<- | [<- | []]]];
    [left | right; left | right; right]; reflexivity.
Qed.

Lemma members_are_catalogue_witness :
  Forall
    (fun member =>
       exists tier,
         getTier (Member.tierId member) = Some tier
         /\ (Member.amount member == inject_Z (Tier.amount tier))%Q
         /\ (Member.weeklyInterest member
             == inject_Z (Tier.amount tier) * Tier.rate tier)%Q
         /\ ((Member.weeklyInterest member == 500)%Q
             \/ (Member.weeklyInterest member == 2000)%Q
             \/ (Member.weeklyInterest member == 6000)%Q))
    (members (stateOf tier3_joins_week4)).
Proof.
  apply (members_are_catalogue (stateOf tier3_joins_week4)).
  apply (run_reachable tier3_joins_week4 initialState);
    [apply reachable_init | vm_compute; reflexivity].
Defined.

(** X5.  Every stored name is non-empty and has no white space left to trim
    at either end. *)
Theorem stored_names_trimmed (st : AppState) :
  reachable st ->
  Forall (fun member => Member.name member <> ""
                        /\ JS.trim (Member.name member) = Member.name member)
    (members st).
Proof.
  apply reachable_members_Forall.
  intros uuid st0 tier q _ Hn _ _. cbn [newMemberOf Member.name].
  split; [exact Hn | apply trim_idempotent].
Qed.

Lemma stored_names_trimmed_witness :
  exists st,
    run tier3_joins_week4 initialState = Some st
    /\ Forall (fun member => Member.name member <> ""
                             /\ JS.trim (Member.name member) = Member.name member)
         (members st)
    /\ map Member.name (members st) = ["Ada"].
Proof.
  eexists. split; [vm_compute; reflexivity |]. split; [| reflexivity].
  match goal with
  | |- Forall _ (members ?st) =>
      apply (stored_names_trimmed st);
      apply (run_reachable tier3_joins_week4 initialState);
      [apply reachable_init | vm_compute; reflexivity]
  end.
Defined.

(** X6.  A successful submission empties the name field, so submitting again
    at once is rejected with [EmptyNameError] and registers nobody twice. *)
Theorem resubmit_rejected (uuid uuid' : string) (st st' : AppState) :
  handleSubmit uuid st = Some st' ->
  error st' = NoError ->
  FormState.name (formState st') = ""
  /\ FormState.tierId (formState st') = FormState.tierId (formState st)
  /\ handleSubmit uuid' st' = Some (setError EmptyNameError st')
  /\ members (setError EmptyNameError st') = members st'.
Proof.
  intros H He.
  assert (Hform : FormState.name (formState st') = ""
                  /\ FormState.tierId (formState st')
                     = FormState.tierId (formState st)).
  { pose proof (handleSubmit_cases uuid st) as Hc. rewrite H in Hc.
    inversion Hc; subst; cbn [error setError] in He; try discriminate He.
    split; reflexivity. }
  destruct Hform as [Hname Htier]. repeat split; try assumption.
  destruct (handleSubmit_cases uuid' st'); try reflexivity;
    match goal with
    | Hn : JS.trim _ <> "" |- _ => rewrite Hname in Hn; now contradiction Hn
    end.
Qed.

Lemma resubmit_rejected_witness :
  exists st',
    handleSubmit "id-ada" ada_ready = Some st'
    /\ handleSubmit "id-bob" st' = Some (setError EmptyNameError st')
    /\ List.length (members (setError EmptyNameError st')) = 1%nat.
Proof.
  eexists. split; [vm_compute; reflexivity |].
  match goal with
  | |- handleSubmit _ ?st' = _ /\ _ =>
      destruct (resubmit_rejected "id-ada" "id-bob" ada_ready st')
        as [_ [_ [Hre Hm]]];
        [vm_compute; reflexivity | reflexivity |]
  end.
  split; [exact Hre | reflexivity].
Defined.

(** X7.  The message changes only on a submission: form edits, withdrawals
    and week advances, in any number and order, leave it as it is. *)
Theorem message_kept_without_submit (evs : list Event) (st st' : AppState) :
  Forall (fun ev => forall uuid, ev <> Submit uuid) evs ->
  run evs st = Some st' ->
  error st' = error st.
Proof.
  revert st. induction evs as [| ev evs IH]; intros st Hno Hrun; simpl in Hrun.
  - inversion Hrun; reflexivity.
  - inversion Hno as [| ? ? Hev Hrest]; subst.
    destruct (step ev st) as [st1 |] eqn:Es; [| discriminate].
    rewrite (IH st1 Hrest Hrun).
    destruct ev as [value | tierId | value | uuid | memberId |]; simpl in Es.
    + inversion Es; reflexivity.
    + unfold handleTierChange in Es.
      destruct (getTier tierId); inversion Es; reflexivity.
    + inversion Es; reflexivity.
    + exfalso. now apply (Hev uuid).
    + inversion Es; reflexivity.
    + inversion Es; reflexivity.
Qed.

Lemma message_kept_without_submit_witness :
  exists st st',
    handleSubmit "id-ada" amount_in_words = Some st
    /\ run [AmountChange "10000"; Withdraw "id-ada"; IncrementWeek] st = Some st'
    /\ error st' = InvalidAmountError.
Proof.
  eexists; eexists. split; [vm_compute; reflexivity |].
  split; [vm_compute; reflexivity |].
  match goal with
  | |- error ?st' = _ =>
      rewrite (message_kept_without_submit
                 [AmountChange "10000"; Withdraw "id-ada"; IncrementWeek]
                 (setError InvalidAmountError amount_in_words) st')
  end.
  - reflexivity.
  - repeat constructor; discriminate.
  - vm_compute; reflexivity.
Defined.

(** X8.  In every reachable state the number of open slots is 12 minus the
    number of members and lies between 0 and 12, and the submit button is
    disabled exactly when the capacity check of a submission would reject. *)
Theorem availableSlots_bounds (st : AppState) :
  reachable st ->
  availableSlots st = 12 - Z.of_nat (List.length (members st))
  /\ 0 <= availableSlots st <= 12
  /\ (submitDisabled st = true
      <-> (MAX_MEMBERS <=? List.length (members st))%nat = true).
Proof.
  intros Hr. pose proof (reachable_size st Hr) as Hsize.
  unfold submitDisabled, availableSlots, MAX_MEMBERS in *.
  rewrite Z.eqb_eq, Nat.leb_le. lia.
Qed.

Lemma availableSlots_bounds_witness :
  availableSlots (stateOf three_members) = 9
  /\ submitDisabled (stateOf three_members) = false
  /\ submitDisabled (stateOf twelve_registrations) = true.
Proof.
  pose proof (availableSlots_bounds (stateOf three_members)
                (reachable_stateOf three_members)) as [H3 _].
  pose proof (availableSlots_bounds (stateOf twelve_registrations)
                (reachable_stateOf twelve_registrations)) as [_ [_ H12]].
  split; [rewrite H3; reflexivity |].
  split; [reflexivity |]. apply H12. reflexivity.
Defined.

(** X9.  White space around the name and around the amount is ignored: the
    submission of the trimmed form has the same members, week and message. *)
Theorem handleSubmit_ignores_outer_space (uuid : string) (st : AppState) :
  outcome (handleSubmit uuid (trimmedForm st)) = outcome (handleSubmit uuid st).
Proof.
  unfold handleSubmit, trimmedForm, setFormState, setMembers, setError.
  cbn [formState members currentWeek error FormState.name FormState.tierId
         FormState.amount].
  rewrite trim_idempotent, Number_trim.
  destruct (String.eqb (JS.trim (FormState.name (formState st))) "");
    [reflexivity |].
  destruct (JS.isNaN (JS.Number (FormState.amount (formState st))));
    [reflexivity |].
  destruct (getTier (FormState.tierId (formState st))) as [tier |];
    [| reflexivity].
  destruct (strictEquals (JS.Number (FormState.amount (formState st)))
              (Tier.amount tier)); [| reflexivity].
  destruct (MAX_MEMBERS <=? List.length (members st))%nat; reflexivity.
Qed.

(** ** Withdrawal and identifiers *)

Lemma withdraw_unique (st : AppState) (before after : list Member.t)
  (member : Member.t) :
  members st = before ++ member :: after ->
  (forall other, In other (before ++ after) ->
                 Member.id other <> Member.id member) ->
  members (handleWithdraw (Member.id member) st) = before ++ after.
Proof.
  intros Hm Hothers. unfold handleWithdraw, setMembers; cbn [members].
  assert (Hkeep : forall l : list Member.t,
             (forall other, In other l -> Member.id other <> Member.id member) ->
             filter (fun m => negb (String.eqb (Member.id m) (Member.id member))) l
             = l).
  { induction l as [| x l IH]; intros H; simpl; [reflexivity |].
    destruct (String.eqb (Member.id x) (Member.id member)) eqn:E; simpl.
    - apply String.eqb_eq in E. exfalso. now apply (H x); [left |].
    - f_equal. apply IH. intros o Ho. apply H. now right. }
  rewrite Hm, filter_app. simpl. rewrite String.eqb_refl. simpl.
  rewrite !Hkeep; [reflexivity | |];
    intros o Ho; apply Hothers; apply in_or_app; tauto.
Qed.

Lemma distinct_ids_split (l : list Member.t) (member : Member.t) :
  NoDup (map Member.id l) -> In member l ->
  exists before after,
    l = before ++ member :: after
    /\ NoDup (map Member.id (before ++ after))
    /\ forall other, In other (before ++ after) ->
                     Member.id other <> Member.id member.
Proof.
  intros Hnd Hin. apply in_split in Hin. destruct Hin as [before [after ->]].
  exists before, after. split; [reflexivity |].
  rewrite map_app in Hnd. simpl in Hnd. apply NoDup_remove in Hnd.
  destruct Hnd as [Hnd Hnot]. rewrite <- map_app in Hnd, Hnot.
  split; [exact Hnd |].
  intros other Ho E. apply Hnot. rewrite <- E. now apply in_map.
Qed.

(** X10.  When the members' identifiers are pairwise distinct, withdrawing a
    member removes that member and no other: one member fewer, one more open
    slot, the identifier gone, the remaining identifiers still distinct. *)
Theorem withdraw_removes_exactly_one (st : AppState) (member : Member.t) :
  NoDup (memberIds st) ->
  In member (members st) ->
  let st' := handleWithdraw (Member.id member) st in
  S (List.length (members st')) = List.length (members st)
  /\ availableSlots st' = availableSlots st + 1
  /\ ~ In (Member.id member) (memberIds st')
  /\ NoDup (memberIds st')
  /\ (forall other, In other (members st) -> other <> member ->
                    In other (members st')).
Proof.
  intros Hnd Hin st'.
  destruct (distinct_ids_split (members st) member Hnd Hin)
    as [before [after [Hm [Hnd' Hothers]]]].
  assert (Hst' : members st' = before ++ after)
    by (apply withdraw_unique; assumption).
  unfold memberIds, availableSlots. rewrite Hst', Hm.
  rewrite !length_app. cbn [List.length].
  split; [lia |]. split; [lia |]. split; [| split; [exact Hnd' |]].
  - intros Habs. apply in_map_iff in Habs. destruct Habs as [o [Eo Ho]].
    now apply (Hothers o Ho).
  - intros other Ho Hne. apply in_app_or in Ho. apply in_or_app.
    destruct Ho as [Ho | [Ho | Ho]]; [now left | now subst | now right].
Qed.

Lemma withdraw_removes_exactly_one_witness :
  exists member,
    In member (members (stateOf three_members))
    /\ Member.id member = "s02"
    /\ List.length (members (handleWithdraw "s02" (stateOf three_members)))
       = 2%nat
    /\ availableSlots (handleWithdraw "s02" (stateOf three_members)) = 10.
Proof.
  eexists. split; [vm_compute; right; left; reflexivity |].
  split; [reflexivity |].
  pose proof (withdraw_removes_exactly_one (stateOf three_members)
                (Member.mk "s02" "s02" "tier1" 10000 (10000 * (5 # 100)) 1))
    as H.
  destruct H as [Hlen [Hslots _]].
  - vm_compute. repeat constructor; simpl; intuition discriminate.
  - vm_compute. right; left; reflexivity.
  - cbn [Member.id] in Hlen, Hslots. split.
    + apply eq_add_S. rewrite Hlen. reflexivity.
    + rewrite Hslots. reflexivity.
Defined.

Lemma withdraw_keeps_ids_distinct (memberId : string) (l : list Member.t) :
  NoDup (map Member.id l) ->
  NoDup (map Member.id
           (filter (fun member => negb (String.eqb (Member.id member) memberId)) l)).
Proof.
  intros Hnd. induction l as [| x l IH]; [constructor |].
  simpl in Hnd. inversion Hnd as [| ? ? Hx Hl]; subst. simpl.
  destruct (String.eqb (Member.id x) memberId); simpl; [now apply IH |].
  constructor; [| now apply IH].
  intros Hin. apply Hx. apply in_map_iff in Hin.
  destruct Hin as [y [Ey Hy]]. apply filter_In in Hy.
  rewrite <- Ey. apply in_map. tauto.
Qed.

Lemma NoDup_snoc {A : Type} (l : list A) (x : A) :
  NoDup l -> ~ In x l -> NoDup (l ++ [x]).
Proof.
  induction l as [| y l IH]; simpl; intros Hnd Hx.
  - constructor; [simpl; tauto | constructor].
  - inversion Hnd as [| ? ? Hy Hl]; subst. constructor.
    + intros Hin. apply in_app_or in Hin.
      destruct Hin as [Hin | [E | []]]; [contradiction |].
      apply Hx. now left.
    + apply IH; [exact Hl | tauto].
Qed.

(** X11.  The members' identifiers stay pairwise distinct along a step,
    provided the identifier drawn for a submission is not already in use. *)
Theorem ids_stay_distinct (ev : Event) (st st' : AppState) :
  NoDup (memberIds st) ->
  (forall uuid, ev = Submit uuid -> ~ In uuid (memberIds st)) ->
  step ev st = Some st' ->
  NoDup (memberIds st').
Proof.
  unfold memberIds. intros Hnd Hfresh Hs.
  destruct ev as [value | tierId | value | uuid | memberId |]; simpl in Hs.
  - inversion Hs; subst. exact Hnd.
  - unfold handleTierChange in Hs.
    destruct (getTier tierId); inversion Hs; subst. exact Hnd.
  - inversion Hs; subst. exact Hnd.
  - pose proof (handleSubmit_cases uuid st) as Hc. rewrite Hs in Hc.
    inversion Hc; subst; try exact Hnd.
    cbn [members]. rewrite map_app. simpl.
    apply NoDup_snoc; [exact Hnd | now apply Hfresh].
  - inversion Hs; subst. cbn [members handleWithdraw setMembers].
    now apply withdraw_keeps_ids_distinct.
  - inversion Hs; subst. exact Hnd.
Qed.

Lemma ids_stay_distinct_witness :
  exists st',
    step (Submit "s04") (handleNameChange "Dan" (stateOf three_members)) = Some st'
    /\ memberIds st' = ["s01"; "s02"; "s03"; "s04"]
    /\ NoDup (memberIds st').
Proof.
  eexists. split; [vm_compute; reflexivity |]. split; [reflexivity |].
  match goal with
  | |- NoDup (memberIds ?st') =>
      apply (ids_stay_distinct (Submit "s04")
               (handleNameChange "Dan" (stateOf three_members)) st')
  end.
  - vm_compute. repeat constructor; simpl; intuition discriminate.
  - intros uuid E. inversion E; subst. vm_compute. intuition discriminate.
  - vm_compute; reflexivity.
Defined.

Lemma filter_length_lt {A : Type} (f : A -> bool) (l : list A) (x : A) :
  In x l -> f x = false -> (List.length (filter f l) < List.length l)%nat.
Proof.
  induction l as [| y l IH]; simpl; [tauto |].
  intros [-> | Hin] Hx.
  - rewrite Hx. pose proof (filter_length_le f l). lia.
  - specialize (IH Hin Hx). destruct (f y); simpl; lia.
Qed.

(** X12.  A withdrawal frees a slot: in a group of at most 12, once a present
    member is withdrawn, a submission with a non-blank name and the amount of
    the selected tier registers the new member. *)
Theorem withdraw_then_submit
  (uuid : string) (st : AppState) (member : Member.t) (tier : Tier.t) (q : Q) :
  (List.length (members st) <= MAX_MEMBERS)%nat ->
  In member (members st) ->
  JS.trim (FormState.name (formState st)) <> "" ->
  getTier (FormState.tierId (formState st)) = Some tier ->
  strictEquals (JS.Number (FormState.amount (formState st))) (Tier.amount tier)
  = Some q ->
  let withdrawn := handleWithdraw (Member.id member) st in
  exists st',
    handleSubmit uuid withdrawn = Some st'
    /\ error st' = NoError
    /\ members st' = members withdrawn ++ [newMemberOf uuid st tier q]
    /\ (List.length (members st') <= List.length (members st))%nat.
Proof.
  intros Hsize Hin Hn Ht Hq withdrawn.
  assert (Hlt : (List.length (members withdrawn) < List.length (members st))%nat).
  { unfold withdrawn, handleWithdraw, setMembers; cbn [members].
    apply (filter_length_lt _ _ member Hin).
    now rewrite String.eqb_refl. }
  pose proof (isNaN_false _ (strictEquals_not_NaN _ _ _ Hq)) as Ha.
  destruct (handleSubmit_cases uuid withdrawn) as
    [Hn' | Hn' Ha' | Hn' Ha' Hu | tier' Hn' Ha' Ht' Hm | tier' q' Hn' Ht' Hq' Hfull
     | tier' q' Hn' Ht' Hq' Hfree];
    cbn [withdrawn handleWithdraw setMembers formState] in *; try congruence.
  - unfold MAX_MEMBERS in *. fold withdrawn in Hfull. lia.
  - assert (tier' = tier) by congruence. subst tier'.
    assert (q' = q) by congruence. subst q'.
    eexists. split; [reflexivity |]. split; [reflexivity |].
    split; [reflexivity |].
    cbn [members]. rewrite length_app. simpl.
    fold (members withdrawn) in Hlt. cbn [withdrawn handleWithdraw setMembers members] in Hlt.
    lia.
Qed.

Lemma withdraw_then_submit_witness :
  exists member st',
    In member (members (stateOf thirteenth_attempt))
    /\ List.length (members (stateOf thirteenth_attempt)) = 12%nat
    /\ handleSubmit "s13" (handleWithdraw (Member.id member)
                             (stateOf thirteenth_attempt)) = Some st'
    /\ error st' = NoError
    /\ memberIds st'
       = ["s01"; "s02"; "s03"; "s04"; "s06"; "s07"; "s08"; "s09"; "s10";
          "s11"; "s12"; "s13"].
Proof.
  exists (Member.mk "s05" "s05" "tier1" 10000 (10000 * (5 # 100)) 1).
  destruct (withdraw_then_submit "s13" (stateOf thirteenth_attempt)
              (Member.mk "s05" "s05" "tier1" 10000 (10000 * (5 # 100)) 1)
              tier1 10000%Q) as [st' [Hs [He [Hm _]]]].
  - vm_compute. lia.
  - vm_compute. do 4 right. left. reflexivity.
  - vm_compute. discriminate.
  - reflexivity.
  - vm_compute. reflexivity.
  - exists st'. split; [vm_compute; do 4 right; left; reflexivity |].
    split; [reflexivity |]. split; [exact Hs |]. split; [exact He |].
    unfold memberIds. rewrite Hm. vm_compute. reflexivity.
Defined.

(** ** Dashboard totals *)

Lemma sumQ_app (a b : list Q) : (sumQ (a ++ b) == sumQ a + sumQ b)%Q.
Proof.
  induction a as [| x a IH]; simpl; [ring | rewrite IH; ring].
Qed.

Lemma totals_sums (members : list Member.t) (currentWeek : Z) :
  (Totals.totalPrincipal (totals members currentWeek)
   == sumQ (map Member.amount members))%Q
  /\ (Totals.totalWithInterest (totals members currentWeek)
      == sumQ (map (fun member => computeProjectedTotal member currentWeek)
                 members))%Q
  /\ (Totals.totalWeeklyInterest (totals members currentWeek)
      == sumQ (map Member.weeklyInterest members))%Q.
Proof.
  unfold totals; cbn [Totals.totalPrincipal Totals.totalWithInterest
                        Totals.totalWeeklyInterest].
  rewrite !fold_left_Qplus. repeat split; ring.
Qed.

Lemma totals_app (a b : list Member.t) (w : Z) :
  (Totals.totalPrincipal (totals (a ++ b) w)
   == Totals.totalPrincipal (totals a w) + Totals.totalPrincipal (totals b w))%Q
  /\ (Totals.totalWithInterest (totals (a ++ b) w)
      == Totals.totalWithInterest (totals a w)
         + Totals.totalWithInterest (totals b w))%Q
  /\ (Totals.totalWeeklyInterest (totals (a ++ b) w)
      == Totals.totalWeeklyInterest (totals a w)
         + Totals.totalWeeklyInterest (totals b w))%Q.
Proof.
  destruct (totals_sums (a ++ b) w) as [Hp [Hi Hw]].
  destruct (totals_sums a w) as [Hpa [Hia Hwa]].
  destruct (totals_sums b w) as [Hpb [Hib Hwb]].
  rewrite Hp, Hi, Hw, Hpa, Hia, Hwa, Hpb, Hib, Hwb, !map_app, !sumQ_app.
  repeat split; reflexivity.
Qed.

Lemma totals_one (member : Member.t) (w : Z) :
  (Totals.totalPrincipal (totals [member] w) == Member.amount member)%Q
  /\ (Totals.totalWithInterest (totals [member] w)
      == computeProjectedTotal member w)%Q
  /\ (Totals.totalWeeklyInterest (totals [member] w)
      == Member.weeklyInterest member)%Q.
Proof.
  unfold totals; simpl. repeat split; ring.
Qed.

Lemma computeProjectedTotal_early (member : Member.t) (w : Z) :
  w <= Member.startWeek member ->
  (computeProjectedTotal member w
   == Member.amount member + Member.weeklyInterest member)%Q.
Proof.
  intros Hw. unfold computeProjectedTotal.
  replace (Z.max 1 (w - Member.startWeek member + 1)) with 1 by lia.
  change (inject_Z 1) with 1%Q. ring.
Qed.

Lemma computeProjectedTotal_next (member : Member.t) (w : Z) :
  Member.startWeek member <= w ->
  (computeProjectedTotal member (w + 1)
   == computeProjectedTotal member w + Member.weeklyInterest member)%Q.
Proof.
  intros Hw. unfold computeProjectedTotal.
  replace (Z.max 1 (w + 1 - Member.startWeek member + 1))
    with (Z.max 1 (w - Member.startWeek member + 1) + 1) by lia.
  rewrite inject_Z_plus. change (inject_Z 1) with 1%Q. ring.
Qed.

(** X13.  The projected payout counts at least one week: up to and including
    the join week it is deposit + weekly interest; from the join week on it
    is deposit + weekly interest × (weeks since joining + 1), so each further
    week adds exactly one weekly interest. *)
Theorem projected_payout_by_week (member : Member.t) (w : Z) :
  (w <= Member.startWeek member ->
   (computeProjectedTotal member w
    == Member.amount member + Member.weeklyInterest member)%Q)
  /\ (Member.startWeek member <= w ->
      (computeProjectedTotal member w
       == Member.amount member
          + Member.weeklyInterest member
            * inject_Z (w - Member.startWeek member + 1))%Q
      /\ (computeProjectedTotal member (w + 1)
          == computeProjectedTotal member w + Member.weeklyInterest member)%Q).
Proof.
  split; [apply computeProjectedTotal_early |].
  intros Hw. split; [| now apply computeProjectedTotal_next].
  unfold computeProjectedTotal.
  replace (Z.max 1 (w - Member.startWeek member + 1))
    with (w - Member.startWeek member + 1) by lia.
  reflexivity.
Qed.

Lemma projected_payout_by_week_witness :
  let member := Member.mk "id-ada" "Ada" "tier3" 30000 6000 4 in
  (computeProjectedTotal member 1 == 36000)%Q
  /\ (computeProjectedTotal member 7 == 30000 + 6000 * 4)%Q
  /\ (computeProjectedTotal member (7 + 1)
      == computeProjectedTotal member 7 + 6000)%Q.
Proof.
  intros member. split; [| split].
  - rewrite (proj1 (projected_payout_by_week member 1)); [reflexivity |].
    simpl; lia.
  - rewrite (proj1 (proj2 (projected_payout_by_week member 7)
                      ltac:(simpl; lia))).
    reflexivity.
  - apply (proj2 (proj2 (projected_payout_by_week member 7) ltac:(simpl; lia))).
Defined.

(** X14.  A successful submission raises the totals by the figures of the
    selected tier: the principal by the deposit, the weekly interest by
    deposit × rate, and the projected payout of the current week by both. *)
Theorem register_adds_to_totals (uuid : string) (st st' : AppState) :
  handleSubmit uuid st = Some st' ->
  error st' = NoError ->
  exists tier,
    getTier (FormState.tierId (formState st)) = Some tier
    /\ (Totals.totalPrincipal (totals (members st') (currentWeek st'))
        == Totals.totalPrincipal (totals (members st) (currentWeek st))
           + inject_Z (Tier.amount tier))%Q
    /\ (Totals.totalWeeklyInterest (totals (members st') (currentWeek st'))
        == Totals.totalWeeklyInterest (totals (members st) (currentWeek st))
           + inject_Z (Tier.amount tier) * Tier.rate tier)%Q
    /\ (Totals.totalWithInterest (totals (members st') (currentWeek st'))
        == Totals.totalWithInterest (totals (members st) (currentWeek st))
           + inject_Z (Tier.amount tier)
           + inject_Z (Tier.amount tier) * Tier.rate tier)%Q.
Proof.
  intros H He. apply handleSubmit_effect in H.
  destruct H as [Hw [[Hne _] | [_ [_ [tier [q [Ht [Hq Hm]]]]]]]];
    [contradiction |].
  exists tier. split; [exact Ht |].
  apply strictEquals_Some in Hq. destruct Hq as [_ Hq].
  rewrite Hw, Hm.
  destruct (totals_app (members st) [newMemberOf uuid st tier q] (currentWeek st))
    as [Hp [Hi Hwi]].
  destruct (totals_one (newMemberOf uuid st tier q) (currentWeek st))
    as [Hp1 [Hi1 Hw1]].
  rewrite Hp, Hi, Hwi, Hp1, Hi1, Hw1.
  rewrite (computeProjectedTotal_early (newMemberOf uuid st tier q) (currentWeek st))
    by (simpl; lia).
  cbn [newMemberOf Member.amount Member.weeklyInterest].
  rewrite Hq. repeat split; ring.
Qed.

Lemma register_adds_to_totals_witness :
  exists st',
    handleSubmit "s04" (handleNameChange "Dan" (stateOf three_members)) = Some st'
    /\ (Totals.totalPrincipal (totals (members st') (currentWeek st')) == 40000)%Q
    /\ (Totals.totalWeeklyInterest (totals (members st') (currentWeek st'))
        == 2000)%Q.
Proof.
  eexists. split; [vm_compute; reflexivity |].
  match goal with
  | |- (Totals.totalPrincipal (totals (members ?st') _) == _)%Q /\ _ =>
      destruct (register_adds_to_totals "s04"
                  (handleNameChange "Dan" (stateOf three_members)) st')
        as [tier [Ht [Hp [Hw _]]]];
        [vm_compute; reflexivity | reflexivity |]
  end.
  vm_compute in Ht. inversion Ht; subst tier.
  split; [rewrite Hp | rewrite Hw]; vm_compute; reflexivity.
Defined.

(** X15.  With pairwise distinct identifiers, withdrawing a member lowers
    each total by exactly that member's figure, whatever the week. *)
Theorem withdraw_subtracts_from_totals
  (st : AppState) (member : Member.t) (w : Z) :
  NoDup (memberIds st) ->
  In member (members st) ->
  let st' := handleWithdraw (Member.id member) st in
  (Totals.totalPrincipal (totals (members st') w)
   == Totals.totalPrincipal (totals (members st) w) - Member.amount member)%Q
  /\ (Totals.totalWeeklyInterest (totals (members st') w)
      == Totals.totalWeeklyInterest (totals (members st) w)
         - Member.weeklyInterest member)%Q
  /\ (Totals.totalWithInterest (totals (members st') w)
      == Totals.totalWithInterest (totals (members st) w)
         - computeProjectedTotal member w)%Q.
Proof.
  intros Hnd Hin st'.
  destruct (distinct_ids_split (members st) member Hnd Hin)
    as [before [after [Hm [_ Hothers]]]].
  assert (Hst' : members st' = before ++ after)
    by (apply withdraw_unique; assumption).
  rewrite Hst', Hm.
  destruct (totals_app before after w) as [Hp [Hi Hw]].
  destruct (totals_app before (member :: after) w) as [Hp' [Hi' Hw']].
  destruct (totals_app [member] after w) as [Hp1 [Hi1 Hw1]].
  destruct (totals_one member w) as [Hpm [Him Hwm]].
  simpl app in Hp1, Hi1, Hw1.
  rewrite Hp, Hi, Hw, Hp', Hi', Hw', Hp1, Hi1, Hw1, Hpm, Him, Hwm.
  repeat split; ring.
Qed.

Lemma withdraw_subtracts_from_totals_witness :
  let st := stateOf three_members in
  let st' := handleWithdraw "s02" st in
  (Totals.totalPrincipal (totals (members st') 3)
   == Totals.totalPrincipal (totals (members st) 3) - 10000)%Q
  /\ (Totals.totalPrincipal (totals (members st') 3) == 20000)%Q.
Proof.
  intros st st'.
  destruct (withdraw_subtracts_from_totals st
              (Member.mk "s02" "s02" "tier1" 10000 (10000 * (5 # 100)) 1) 3)
    as [Hp _].
  - vm_compute. repeat constructor; simpl; intuition discriminate.
  - vm_compute. right; left; reflexivity.
  - cbn [Member.id Member.amount] in Hp. fold st' in Hp.
    split; [exact Hp | rewrite Hp; vm_compute; reflexivity].
Defined.

Lemma sumQ_next_week (members : list Member.t) (w : Z) :
  Forall (fun member => Member.startWeek member <= w) members ->
  (sumQ (map (fun member => computeProjectedTotal member (w + 1)) members)
   == sumQ (map (fun member => computeProjectedTotal member w) members)
      + sumQ (map Member.weeklyInterest members))%Q.
Proof.
  induction 1 as [| member rest Hm _ IH]; simpl; [ring |].
  rewrite IH, (computeProjectedTotal_next member w Hm). ring.
Qed.

(** X16.  In a reachable state one more week raises the total projected
    payout by exactly the total weekly interest and leaves the total
    principal and the total weekly interest as they are. *)
Theorem advanceWeek_adds_weekly_interest (st : AppState) :
  reachable st ->
  let before := totals (members st) (currentWeek st) in
  let after :=
    totals (members (advanceWeek st)) (currentWeek (advanceWeek st)) in
  (Totals.totalWithInterest after
   == Totals.totalWithInterest before + Totals.totalWeeklyInterest before)%Q
  /\ Totals.totalPrincipal after = Totals.totalPrincipal before
  /\ Totals.totalWeeklyInterest after = Totals.totalWeeklyInterest before.
Proof.
  intros Hr before after.
  split; [| split; reflexivity].
  unfold before, after. cbn [advanceWeek setCurrentWeek members currentWeek].
  destruct (totals_sums (members st) (currentWeek st + 1)) as [_ [Hi' _]].
  destruct (totals_sums (members st) (currentWeek st)) as [_ [Hi Hw]].
  rewrite Hi', Hi, Hw.
  apply sumQ_next_week. apply (proj2 (reachable_weeks st Hr)).
Qed.

Lemma advanceWeek_adds_weekly_interest_witness :
  let st := stateOf three_members in
  (Totals.totalWithInterest
     (totals (members (advanceWeek st)) (currentWeek (advanceWeek st)))
   == Totals.totalWithInterest (totals (members st) (currentWeek st))
      + Totals.totalWeeklyInterest (totals (members st) (currentWeek st)))%Q
  /\ (Totals.totalWeeklyInterest (totals (members st) (currentWeek st))
      == 1500)%Q.
Proof.
  intros st. split.
  - apply (advanceWeek_adds_weekly_interest st).
    apply (run_reachable three_members initialState);
      [apply reachable_init | vm_compute; reflexivity].
  - vm_compute; reflexivity.
Defined.

Lemma sumQ_bounds {A : Type} (f : A -> Q) (lo hi : Q) (l : list A) :
  Forall (fun x => (lo <= f x <= hi)%Q) l ->
  (lo * inject_Z (Z.of_nat (List.length l)) <= sumQ (map f l)
   <= hi * inject_Z (Z.of_nat (List.length l)))%Q.
Proof.
  induction 1 as [| x l [Hlo Hhi] _ [IHlo IHhi]].
  - cbn [List.length map sumQ fold_right Z.of_nat].
    change (inject_Z 0) with 0%Q. split; lra.
  - cbn [List.length map sumQ fold_right].
    rewrite Nat2Z.inj_succ, <- Z.add_1_r, inject_Z_plus.
    change (inject_Z 1) with 1%Q. fold (sumQ (map f l)). split; lra.
Qed.

Lemma sumQ_payout_lower (members : list Member.t) (w : Z) :
  Forall (fun member => (0 <= Member.weeklyInterest member)%Q) members ->
  (sumQ (map Member.amount members) + sumQ (map Member.weeklyInterest members)
   <= sumQ (map (fun member => computeProjectedTotal member w) members))%Q.
Proof.
  induction 1 as [| member rest Hwi _ IH]; simpl; [lra |].
  assert (Hone : (Member.amount member + Member.weeklyInterest member
                  <= computeProjectedTotal member w)%Q).
  { unfold computeProjectedTotal.
    assert (H1 : (1 <= inject_Z (Z.max 1 (w - Member.startWeek member + 1)))%Q)
      by (change 1%Q with (inject_Z 1); rewrite <- Zle_Qle; lia).
    nra. }
  lra.
Qed.

Lemma catalogMember_bounds (member : Member.t) :
  catalogMember member ->
  (10000 <= Member.amount member <= 30000)%Q
  /\ (500 <= Member.weeklyInterest member <= 6000)%Q.
Proof.
  intros [tier [Hcat [_ [Ha Hw]]]]. rewrite Hw, Ha.
  simpl in Hcat. destruct Hcat as [<- | [<- | [<- | []]]];
    repeat split; vm_compute; discriminate.
Qed.

(** X17.  In a reachable state with [n] members the total principal lies
    between 10000 n and 30000 n, at most 360000; the total weekly interest
    between 500 n and 6000 n, at most 72000; and the total projected payout
    is at least the principal plus one week of interest. *)
Theorem totals_bounds (st : AppState) :
  reachable st ->
  let figures := totals (members st) (currentWeek st) in
  let n := inject_Z (Z.of_nat (List.length (members st))) in
  (10000 * n <= Totals.totalPrincipal figures <= 30000 * n)%Q
  /\ (Totals.totalPrincipal figures <= 360000)%Q
  /\ (500 * n <= Totals.totalWeeklyInterest figures <= 6000 * n)%Q
  /\ (Totals.totalWeeklyInterest figures <= 72000)%Q
  /\ (Totals.totalPrincipal figures + Totals.totalWeeklyInterest figures
      <= Totals.totalWithInterest figures)%Q.
Proof.
  intros Hr figures n.
  pose proof (reachable_catalog st Hr) as Hcat.
  assert (Hn : (n <= 12)%Q).
  { unfold n. change 12%Q with (inject_Z 12). rewrite <- Zle_Qle.
    pose proof (reachable_size st Hr) as H. unfold MAX_MEMBERS in H. lia. }
  destruct (totals_sums (members st) (currentWeek st)) as [Hp [Hi Hw]].
  fold figures in Hp, Hi, Hw.
  assert (Ha : (10000 * n <= sumQ (map Member.amount (members st)) <= 30000 * n)%Q).
  { apply sumQ_bounds. eapply Forall_impl; [| exact Hcat].
    intros m Hm. apply (catalogMember_bounds m Hm). }
  assert (Hb : (500 * n <= sumQ (map Member.weeklyInterest (members st))
                <= 6000 * n)%Q).
  { apply sumQ_bounds. eapply Forall_impl; [| exact Hcat].
    intros m Hm. apply (catalogMember_bounds m Hm). }
  assert (Hc : (sumQ (map Member.amount (members st))
                + sumQ (map Member.weeklyInterest (members st))
                <= sumQ (map (fun member =>
                                computeProjectedTotal member (currentWeek st))
                           (members st)))%Q).
  { apply sumQ_payout_lower. eapply Forall_impl; [| exact Hcat].
    intros m Hm. apply Qlt_le_weak. now apply catalogMember_interest_pos. }
  rewrite Hp, Hi, Hw. repeat split; lra.
Qed.

Lemma totals_bounds_witness :
  let figures :=
    totals (members (stateOf twelve_registrations))
      (currentWeek (stateOf twelve_registrations)) in
  (Totals.totalPrincipal figures <= 360000)%Q
  /\ (Totals.totalWeeklyInterest figures <= 72000)%Q
  /\ (Totals.totalPrincipal figures == 120000)%Q.
Proof.
  intros figures.
  destruct (totals_bounds (stateOf twelve_registrations)) as [_ [Hp [_ [Hw _]]]].
  - apply (run_reachable twelve_registrations initialState);
      [apply reachable_init | vm_compute; reflexivity].
  - split; [exact Hp |]. split; [exact Hw |]. vm_compute; reflexivity.
Defined.

(** X18.  Registering a member under an identifier that is not in use and
    withdrawing that identifier gives back the member list there was. *)
Theorem submit_then_withdraw (uuid : string) (st st' : AppState) :
  ~ In uuid (memberIds st) ->
  handleSubmit uuid st = Some st' ->
  error st' = NoError ->
  members (handleWithdraw uuid st') = members st
  /\ currentWeek (handleWithdraw uuid st') = currentWeek st
  /\ List.length (members st') = S (List.length (members st)).
Proof.
  intros Hfresh H He. apply handleSubmit_effect in H.
  destruct H as [Hw [[Hne _] | [_ [_ [tier [q [_ [_ Hm]]]]]]]];
    [contradiction |].
  split; [| split].
  - pose proof (withdraw_unique st' (members st) []
                  (newMemberOf uuid st tier q)) as Hu.
    cbn [newMemberOf Member.id] in Hu. rewrite app_nil_r in Hu.
    apply Hu; [exact Hm |].
    intros other Ho E. apply Hfresh. unfold memberIds.
    rewrite <- E. now apply in_map.
  - exact Hw.
  - rewrite Hm, length_app. simpl. lia.
Qed.

Lemma submit_then_withdraw_witness :
  exists st',
    handleSubmit "s04" (handleNameChange "Dan" (stateOf three_members)) = Some st'
    /\ memberIds st' = ["s01"; "s02"; "s03"; "s04"]
    /\ memberIds (handleWithdraw "s04" st') = ["s01"; "s02"; "s03"].
Proof.
  eexists. split; [vm_compute; reflexivity |]. split; [reflexivity |].
  match goal with
  | |- memberIds (handleWithdraw _ ?st') = _ =>
      destruct (submit_then_withdraw "s04"
                  (handleNameChange "Dan" (stateOf three_members)) st')
        as [Hm _];
        [vm_compute; intuition discriminate
        | vm_compute; reflexivity | reflexivity |];
      unfold memberIds; rewrite Hm
  end.
  vm_compute; reflexivity.
Defined.

(** ** What a submission looks at *)

(** X19.  A submission looks at the member list only through its length:
    there is no check against the names or tiers already present.  With the
    same form and week and as many members, it shows the same message and
    either changes neither list or appends the same member to both. *)
Theorem handleSubmit_ignores_who_is_in
  (uuid : string) (st : AppState) (others : list Member.t) :
  List.length others = List.length (members st) ->
  let st2 := setMembers (fun _ => others) st in
  match handleSubmit uuid st, handleSubmit uuid st2 with
  | Some a, Some b =>
      error a = error b
      /\ formState a = formState b
      /\ ((members a = members st /\ members b = others)
          \/ exists member,
               members a = members st ++ [member]
               /\ members b = others ++ [member])
  | None, None => True
  | _, _ => False
  end.
Proof.
  intros Hlen st2.
  unfold handleSubmit, st2, setFormState, setMembers, setError.
  cbn [formState members currentWeek error]. rewrite Hlen.
  destruct (String.eqb (JS.trim (FormState.name (formState st))) "").
  { cbn [error formState members]. repeat split. left. split; reflexivity. }
  destruct (JS.isNaN (JS.Number (FormState.amount (formState st)))).
  { cbn [error formState members]. repeat split. left. split; reflexivity. }
  destruct (getTier (FormState.tierId (formState st))) as [tier |]; [| exact I].
  destruct (strictEquals (JS.Number (FormState.amount (formState st)))
              (Tier.amount tier)) as [q |].
  2: { cbn [error formState members]. repeat split. left. split; reflexivity. }
  destruct (MAX_MEMBERS <=? List.length (members st))%nat;
    cbn [error formState members]; repeat split.
  - left. split; reflexivity.
  - right. eexists. split; reflexivity.
Qed.

Lemma handleSubmit_ignores_who_is_in_witness :
  exists a b,
    handleSubmit "s04" (handleNameChange "s01" (stateOf three_members)) = Some a
    /\ handleSubmit "s04"
         (setMembers (fun _ => rev (members (stateOf three_members)))
            (handleNameChange "s01" (stateOf three_members))) = Some b
    /\ error a = error b
    /\ map Member.name (members a) = ["s01"; "s02"; "s03"; "s01"].
Proof.
  pose proof (handleSubmit_ignores_who_is_in "s04"
                (handleNameChange "s01" (stateOf three_members))
                (rev (members (stateOf three_members)))) as H.
  cbv zeta in H.
  destruct (handleSubmit "s04" (handleNameChange "s01" (stateOf three_members)))
    as [a |] eqn:Ea;
    destruct (handleSubmit "s04"
                (setMembers (fun _ => rev (members (stateOf three_members)))
                   (handleNameChange "s01" (stateOf three_members))))
      as [b |] eqn:Eb;
    try (exfalso; vm_compute in Ea; vm_compute in Eb; discriminate).
  exists a, b. split; [reflexivity |]. split; [reflexivity |].
  destruct H as [He _]; [reflexivity |].
  split; [exact He |]. vm_compute in Ea. inversion Ea. reflexivity.
Defined.

(** X20.  A rejected submission leaves the form as it was typed (and the
    members and the week as they were): only the message changes. *)
Theorem rejected_submission_keeps_form (uuid : string) (st st' : AppState) :
  handleSubmit uuid st = Some st' ->
  error st' <> NoError ->
  st' = setError (error st') st
  /\ formState st' = formState st.
Proof.
  intros H Hne. pose proof (handleSubmit_cases uuid st) as Hc. rewrite H in Hc.
  inversion Hc; subst; cbn [error setError formState] in *;
    try (split; reflexivity).
  now contradiction Hne.
Qed.

Lemma rejected_submission_keeps_form_witness :
  exists st',
    handleSubmit "id-ada" amount_of_tier2 = Some st'
    /\ formState st' = FormState.mk "Ada" "tier1" "20000"
    /\ error st' = TierMismatchError "Tier 1" 10000.
Proof.
  eexists. split; [vm_compute; reflexivity |].
  match goal with
  | |- formState ?st' = _ /\ _ =>
      destruct (rejected_submission_keeps_form "id-ada" amount_of_tier2 st')
        as [_ Hf]; [vm_compute; reflexivity | discriminate |];
      rewrite Hf
  end.
  split; reflexivity.
Defined.
